(** * Kursziel-Extraktor: a shallow embedding of [kursziel_extractor.py]

    The development follows the order of the Python module: the string
    primitives the code relies on, the numeric normaliser [parse_kursziel],
    the table selector [get_kursziele_table], the batch runner
    [process_kursziele_from_excel] and the output path of [main]. *)

From Stdlib Require Import ZArith NArith Ascii String List Bool Lia.
From Stdlib Require Import SpecFloat.
From stdpp Require Import gmap strings list fin_maps.

Local Open Scope string_scope.

(** ** Exceptions

    Python code either returns a value or raises.  Only the exception
    classes that the module can meet are listed; every one of them derives
    from [Exception]. *)

Inductive exn : Type :=
| ValueError
| TypeError
| AttributeError
| KeyError
| FileNotFoundError
| RequestException
| OtherException.

Inductive result (A : Type) : Type :=
| Ok (a : A)
| Raise (e : exn).

Arguments Ok {A} a.
Arguments Raise {A} e.

#[global] Instance result_ret : MRet result := fun _ a => Ok a.
#[global] Instance result_bind : MBind result := fun _ _ f r =>
  match r with
  | Ok a => f a
  | Raise e => Raise e
  end.

(** [try: body except <classes>: handler]. An exception outside the listed
    classes propagates. *)
Definition try_except {A : Type} (body : result A) (classes : exn -> bool)
    (handler : exn -> result A) : result A :=
  match body with
  | Ok a => Ok a
  | Raise e => if classes e then handler e else Raise e
  end.

(** [except Exception] *)
Definition any_Exception (e : exn) : bool := true.

(** [except (ValueError, TypeError)] *)
Definition ValueError_or_TypeError (e : exn) : bool :=
  match e with
  | ValueError | TypeError => true
  | _ => false
  end.

(** [except FileNotFoundError] *)
Definition is_FileNotFoundError (e : exn) : bool :=
  match e with
  | FileNotFoundError => true
  | _ => false
  end.

(** [except requests.RequestException] *)
Definition is_RequestException (e : exn) : bool :=
  match e with
  | RequestException => true
  | _ => false
  end.

(** ** Strings

    A Python [str] is modelled by the bytes of its UTF-8 encoding.  Substring
    search and replacement commute with the encoding because UTF-8 is
    self-synchronising.  Case mapping and the white-space class are modelled
    on ASCII; bytes above 127 are left alone. *)

Module PyStr.

(** [s.startswith(p)] *)
Fixpoint startswith (s p : string) : bool :=
  match p with
  | "" => true
  | String b p' =>
      match s with
      | "" => false
      | String a s' => if Ascii.eqb a b then startswith s' p' else false
      end
  end.

(** [needle in hay] *)
Fixpoint contains (needle hay : string) : bool :=
  startswith hay needle ||
  match hay with
  | "" => false
  | String _ hay' => contains needle hay'
  end.

(** The scan of [str.replace] for a non-empty [old]: left to right, not
    overlapping.  [skip] counts the characters of a match that are still to
    be passed over. *)
Fixpoint replace_scan (old new : string) (skip : nat) (s : string) : string :=
  match s with
  | "" => ""
  | String c s' =>
      match skip with
      | S k => replace_scan old new k s'
      | O =>
          if startswith s old
          then new +:+ replace_scan old new (String.length old - 1) s'
          else String c (replace_scan old new 0 s')
      end
  end.

(** For an empty [old] Python puts [new] before every character and at the
    end. *)
Fixpoint intersperse (new s : string) : string :=
  match s with
  | "" => new
  | String c s' => new +:+ String c (intersperse new s')
  end.

(** [s.replace(old, new)] *)
Definition replace (old new s : string) : string :=
  match old with
  | "" => intersperse new s
  | _ => replace_scan old new 0 s
  end.

(** [c.isspace()] on ASCII: TAB, LF, VT, FF, CR, FS, GS, RS, US and the
    space. *)
Definition isspace (c : ascii) : bool :=
  let n := nat_of_ascii c in
  ((9 <=? n)%nat && (n <=? 13)%nat) || ((28 <=? n)%nat && (n <=? 32)%nat).

Fixpoint lstrip (s : string) : string :=
  match s with
  | "" => ""
  | String c s' => if isspace c then lstrip s' else s
  end.

Fixpoint rstrip (s : string) : string :=
  match s with
  | "" => ""
  | String c s' =>
      match rstrip s' with
      | "" => if isspace c then "" else String c ""
      | r => String c r
      end
  end.

(** [s.strip()] *)
Definition strip (s : string) : string := rstrip (lstrip s).

Definition lower_char (c : ascii) : ascii :=
  let n := nat_of_ascii c in
  if (65 <=? n)%nat && (n <=? 90)%nat then ascii_of_nat (n + 32) else c.

(** [s.lower()] *)
Fixpoint lower (s : string) : string :=
  match s with
  | "" => ""
  | String c s' => String (lower_char c) (lower s')
  end.

(** Deleting or substituting single characters, as the prose of the
    specification describes the two separator steps. *)
Fixpoint delete_char (a : ascii) (s : string) : string :=
  match s with
  | "" => ""
  | String c s' => if Ascii.eqb c a then delete_char a s' else String c (delete_char a s')
  end.

Fixpoint subst_char (a b : ascii) (s : string) : string :=
  match s with
  | "" => ""
  | String c s' => String (if Ascii.eqb c a then b else c) (subst_char a b s')
  end.

End PyStr.

(** ** Python's [float(str)]

    The text is stripped of surrounding white space -- for [float] that is
    TAB, LF, VT, FF, CR and the space, a smaller class than that of
    [str.strip] --, underscores between digits are dropped, and what remains
    must be a signed decimal numeral with an optional exponent, or one of
    [inf], [infinity], [nan] in any letter case.  The value is the binary64
    number nearest to the decimal (ties to even), computed with the rounding
    of [SpecFloat].  Any other text raises [ValueError].  On ASCII text this
    is what Python does; the white space and the digits outside ASCII that
    Python also accepts are not modelled. *)

Module PyFloat.

Definition prec : Z := 53.
Definition emax : Z := 1024.

(** The binary64 nearest to [(-1)^neg * m * 10^e10]. *)
Definition of_decimal (neg : bool) (m : N) (e10 : Z) : spec_float :=
  match m with
  | N0 => S754_zero neg
  | Npos p =>
      match e10 with
      | Zneg k =>
          let '(q, e, l) :=
            SFdiv_core_binary prec emax (Zpos p) 0 (Zpos (10 ^ k)) 0 in
          binary_round_aux prec emax neg q e l
      | Z0 => binary_round prec emax neg p 0
      | Zpos k => binary_round prec emax neg (p * 10 ^ k) 0
      end
  end.

Definition is_digit (c : ascii) : bool :=
  let n := nat_of_ascii c in (48 <=? n)%nat && (n <=? 57)%nat.

Definition digit_val (c : ascii) : N := N.of_nat (nat_of_ascii c - 48).

(** An underscore is allowed only between two digits. *)
Fixpoint drop_underscores (prev : ascii) (s : string) : option string :=
  match s with
  | "" => if Ascii.eqb prev "_" then None else Some ""
  | String c s' =>
      if Ascii.eqb c "_" then
        if is_digit prev then drop_underscores c s' else None
      else if Ascii.eqb prev "_" && negb (is_digit c) then None
      else String c <$> drop_underscores c s'
  end.

(** Reads a run of digits: the value accumulated on [acc], the number of
    digits read, and the rest of the text. *)
Fixpoint read_digits (acc : N) (n : nat) (s : string) : N * nat * string :=
  match s with
  | "" => (acc, n, s)
  | String c s' =>
      if is_digit c then read_digits (acc * 10 + digit_val c)%N (S n) s'
      else (acc, n, s)
  end.

Definition read_sign (s : string) : bool * string :=
  match s with
  | String "-" s' => (true, s')
  | String "+" s' => (false, s')
  | _ => (false, s)
  end.

(** The exponent part must use up the text. *)
Definition read_exponent (s : string) : option Z :=
  match s with
  | "" => Some 0%Z
  | String c s' =>
      if Ascii.eqb c "e" || Ascii.eqb c "E" then
        let '(neg, s1) := read_sign s' in
        let '(v, n, s2) := read_digits 0 0 s1 in
        match n, s2 with
        | S _, "" => Some (if neg then - Z.of_N v else Z.of_N v)%Z
        | _, _ => None
        end
      else None
  end.

Definition read_number (neg : bool) (s : string) : option spec_float :=
  let '(i, ni, s1) := read_digits 0 0 s in
  let '(m, nf, s2) :=
    match s1 with
    | String "." s1' => read_digits i 0 s1'
    | _ => (i, 0, s1)
    end in
  match ni + nf with
  | O => None
  | S _ =>
      e ← read_exponent s2;
      Some (of_decimal neg m (e - Z.of_nat nf))
  end.

Definition read_inf_or_nan (neg : bool) (s : string) : option spec_float :=
  let l := PyStr.lower s in
  if String.eqb l "inf" || String.eqb l "infinity" then Some (S754_infinity neg)
  else if String.eqb l "nan" then Some S754_nan
  else None.

(** The white space that [float] strips. *)
Definition isspace (c : ascii) : bool :=
  let n := nat_of_ascii c in
  ((9 <=? n)%nat && (n <=? 13)%nat) || (n =? 32)%nat.

Fixpoint lstrip (s : string) : string :=
  match s with
  | "" => ""
  | String c s' => if isspace c then lstrip s' else s
  end.

Fixpoint rstrip (s : string) : string :=
  match s with
  | "" => ""
  | String c s' =>
      match rstrip s' with
      | "" => if isspace c then "" else String c ""
      | r => String c r
      end
  end.

Definition strip (s : string) : string := rstrip (lstrip s).

(** [float(s)] *)
Definition float (s : string) : result spec_float :=
  match drop_underscores "000" (strip s) with
  | None => Raise ValueError
  | Some t =>
      let '(neg, u) := read_sign t in
      match read_inf_or_nan neg u with
      | Some f => Ok f
      | None =>
          match read_number neg u with
          | Some f => Ok f
          | None => Raise ValueError
          end
      end
  end.

End PyFloat.

(** ** Numeric normaliser: [parse_kursziel] (lines 72-84)

    A cell reaches the function as a Python scalar.  The function looks at it
    only through [pd.isna(value)] and [str(value)], so a cell is [None] when
    [pd.isna] holds and [Some txt] with [txt = str(value)] otherwise. *)

(** The local [stripped]: currency markers and spaces removed. *)
Definition stripped (txt : string) : string :=
  PyStr.replace " " ""
    (PyStr.replace "USD" ""
       (PyStr.replace "EUR" ""
          (PyStr.replace "€" "" txt))).

(** The local [norm]: thousands dots removed, decimal comma turned into a
    dot. *)
Definition norm (txt : string) : string :=
  PyStr.replace "," "." (PyStr.replace "." "" (stripped txt)).

Definition parse_kursziel (value : option string) : result (option spec_float) :=
  match value with
  | None => Ok None
  | Some txt =>
      try_except (f ← PyFloat.float (norm txt); mret (Some f))
        ValueError_or_TypeError
        (fun _ => Ok None)
  end.

(** ** Data frames

    A frame has an ordered list of column names and a list of rows; a row
    maps a column name to its cell.  [len(df)] is the number of rows.  A cell
    that a row does not hold reads as the missing value. *)

Record Frame (C : Type) : Type := {
  columns : list string;
  rows : list (gmap string C)
}.

Arguments columns {C} f.
Arguments rows {C} f.

(** A cell of an extracted table: either the value pandas parsed, seen as in
    [parse_kursziel], or the outcome of [parse_kursziel]. *)
Inductive Cell : Type :=
| Raw (v : option string)
| Norm (f : option spec_float).

(** The missing value of a parsed column. *)
Definition NaN : Cell := Raw None.

Definition cell (r : gmap string Cell) (c : string) : Cell :=
  default NaN (r !! c).

Definition raw_cell (r : gmap string (option string)) (c : string) : option string :=
  default None (r !! c).

(** [pd.DataFrame()] *)
Definition empty_frame : Frame Cell := {| columns := []; rows := [] |}.

(** What [pd.read_html] hands back: the labels pandas chose for the columns
    (text of the header cells, integers when it found no header row, tuples
    for a header of several rows) and the parsed rows, cell by cell. *)
Inductive Label : Type :=
| LStr (s : string)
| LInt (n : Z)
| LTuple (l : list string).

Record RawFrame : Type := {
  raw_columns : list Label;
  raw_rows : list (list (option string))
}.

(** [col.strip()]: only a [str] has the method. *)
Definition label_strip (col : Label) : result string :=
  match col with
  | LStr s => Ok (PyStr.strip s)
  | _ => Raise AttributeError
  end.

Fixpoint mapM {A B : Type} (f : A -> result B) (l : list A) : result (list B) :=
  match l with
  | [] => Ok []
  | a :: l' => b ← f a; bs ← mapM f l'; mret (b :: bs)
  end.

(** [df.columns = names] *)
Definition set_columns (names : list string) (raw : RawFrame) : Frame (option string) :=
  {| columns := names;
     rows := map (fun r => list_to_map (zip names r)) (raw_rows raw) |}.

(** [df[c] = v] for a scalar [v]: an existing column is overwritten in every
    row, a new one is appended. *)
Definition set_column (c : string) (v : Cell) (df : Frame Cell) : Frame Cell :=
  {| columns := if decide (c ∈ columns df) then columns df else (columns df ++ [c])%list;
     rows := map (fun r => <[c := v]> r) (rows df) |}.

(** ** Table selector: [get_kursziele_table] (lines 14-107) *)

(** A [<table>] element as the code looks at it: the cell texts
    ([get_text(strip=True)]) of the first [<thead>] and of the first [<tr>]
    if there is one, and what [pd.read_html(str(table), flavor='bs4')[0]]
    makes of the markup. *)
Record Table : Type := {
  thead : option (list string);
  first_tr : option (list string);
  read_html : result RawFrame
}.

Definition keyword : string := "kursziel".

(** Lines 44-53; [None] is the [continue]. *)
Definition headers_text (table : Table) : option (list string) :=
  match thead table with
  | Some cells => Some (map PyStr.lower cells)
  | None =>
      match first_tr table with
      | Some cells => Some (map PyStr.lower cells)
      | None => None
      end
  end.

(** Line 56 *)
Definition header_has_keyword (table : Table) : bool :=
  match headers_text table with
  | Some hs => existsb (PyStr.contains keyword) hs
  | None => false
  end.

(** Lines 58-61 and 93-94 *)
Definition load_frame (table : Table) : result (Frame (option string)) :=
  raw ← read_html table;
  names ← mapM label_strip (raw_columns raw);
  mret (set_columns names raw).

(** Lines 64-68 *)
Definition find_kursziel_col (cols : list string) : option string :=
  List.find (fun col => PyStr.contains keyword (PyStr.lower col)) cols.

(** Line 86: [df[kursziel_col] = df[kursziel_col].apply(parse_kursziel)].
    The other columns keep what pandas parsed. *)
Definition apply_parse_kursziel (kursziel_col : string) (df : Frame (option string))
  : result (Frame Cell) :=
  rs ← mapM (fun r =>
               v ← parse_kursziel (raw_cell r kursziel_col);
               mret (<[kursziel_col := Norm v]> (Raw <$> r)))
            (rows df);
  mret {| columns := columns df; rows := rs |}.

(** A frame returned without normalisation (line 96). *)
Definition as_parsed (df : Frame (option string)) : Frame Cell :=
  {| columns := columns df; rows := map (fmap Raw) (rows df) |}.

(** The [for table in tables] loop, lines 42-88.  [Ok None] means that the
    loop ran to its end without a [return]. *)
Fixpoint search_tables (tables : list Table) : result (option (Frame Cell)) :=
  match tables with
  | [] => Ok None
  | table :: rest =>
      match headers_text table with
      | None => search_tables rest
      | Some hs =>
          if existsb (PyStr.contains keyword) hs then
            df ← load_frame table;
            match find_kursziel_col (columns df) with
            | Some kursziel_col =>
                if String.eqb kursziel_col "" then search_tables rest
                else
                  df' ← apply_parse_kursziel kursziel_col df;
                  mret (Some df')
            | None => search_tables rest
            end
          else search_tables rest
      end
  end.

(** Lines 90-100 *)
Definition first_table (tables : list Table) : result (option (Frame Cell)) :=
  match tables with
  | [] => Ok None
  | table0 :: _ =>
      try_except (df ← load_frame table0; mret (Some (as_parsed df)))
        any_Exception
        (fun _ => Ok None)
  end.

(** Lines 37-100: what happens to the tables of a page. *)
Definition select_table (tables : list Table) : result (option (Frame Cell)) :=
  match tables with
  | [] => Ok None
  | _ =>
      found ← search_tables tables;
      match found with
      | Some df => Ok (Some df)
      | None => first_table tables
      end
  end.

(** ** Effects

    The module talks to the network and sleeps.  A computation threads the
    list of the events that happened so far and may raise. *)

Inductive Event : Type :=
| Request (url : string)
| Sleep (seconds : nat).

Definition IO (A : Type) : Type := list Event -> result A * list Event.

#[global] Instance IO_ret : MRet IO := fun _ a tr => (Ok a, tr).
#[global] Instance IO_bind : MBind IO := fun _ _ f m tr =>
  match m tr with
  | (Ok a, tr') => f a tr'
  | (Raise e, tr') => (Raise e, tr')
  end.

Definition emit (ev : Event) : IO unit := fun tr => (Ok tt, (tr ++ [ev])%list).

Definition lift {A : Type} (r : result A) : IO A := fun tr => (r, tr).

(** [try: body] followed by [except] clauses, tried in order. *)
Definition IO_try {A : Type} (body : IO A)
    (clauses : list ((exn -> bool) * (exn -> IO A))) : IO A :=
  fun tr =>
    match body tr with
    | (Ok a, tr') => (Ok a, tr')
    | (Raise e, tr') =>
        match List.find (fun cl => fst cl e) clauses with
        | Some cl => snd cl e tr'
        | None => (Raise e, tr')
        end
    end.

(** The web: for an address, the outcome of lines 29-35, that is either the
    list of the [<table>] elements of the page in document order, or the
    exception of [requests.get] or [raise_for_status]. *)
Definition Web : Type := string -> result (list Table).

Definition fetch_tables (web : Web) (page_url : string) : IO (list Table) :=
  _ ← emit (Request page_url);
  lift (web page_url).

Definition get_kursziele_table (web : Web) (page_url : string)
  : IO (option (Frame Cell)) :=
  IO_try
    (tables ← fetch_tables web page_url;
     lift (select_table tables))
    [ (is_RequestException, fun _ => mret None);
      (any_Exception, fun _ => mret None) ].

(** ** Batch runner: [process_kursziele_from_excel] (lines 110-171) *)

(** The file system: [pd.read_excel(excel_path, sheet_name=sheet_name)]. *)
Definition FileSystem : Type := string -> string -> result (Frame (option string)).

(** [Series.astype(str)] on a cell *)
Definition astype_str (v : option string) : string := default "nan" v.

(** Lines 130-132 *)
Definition clean_urls (url_column : string) (df : Frame (option string))
  : result (Frame (option string)) :=
  if decide (url_column ∈ columns df) then
    let notna := List.filter (fun r => bool_decide (is_Some (raw_cell r url_column))) (rows df) in
    let trimmed :=
      map (fun r => <[url_column := Some (PyStr.strip (astype_str (raw_cell r url_column)))]> r)
          notna in
    let nonempty :=
      List.filter (fun r => negb (String.eqb (astype_str (raw_cell r url_column)) "")) trimmed in
    Ok {| columns := columns df; rows := nonempty |}
  else Raise KeyError.

(** [row[url_column]] *)
Definition row_url (url_column : string) (row : gmap string (option string)) : string :=
  astype_str (raw_cell row url_column).

(** Lines 148-150 *)
Definition copy_row_columns (url_column : string) (cols : list string)
    (row : gmap string (option string)) (kursziel_table : Frame Cell) : Frame Cell :=
  fold_left
    (fun t col =>
       if decide (col = url_column) then t
       else set_column col (Raw (raw_cell row col)) t)
    cols kursziel_table.

(** Lines 146-150 *)
Definition tag_table (url_column : string) (cols : list string)
    (row : gmap string (option string)) (kursziel_table : Frame Cell) : Frame Cell :=
  copy_row_columns url_column cols row
    (set_column "Source_URL" (Raw (Some (row_url url_column row))) kursziel_table).

(** The body of the loop, lines 139-155. *)
Definition process_row (web : Web) (url_column : string) (cols : list string)
    (row : gmap string (option string)) (results : list (Frame Cell))
  : IO (list (Frame Cell)) :=
  let url := row_url url_column row in
  kursziel_table ← get_kursziele_table web url;
  match kursziel_table with
  | Some t =>
      if (0 <? length (rows t))%nat then
        let results' := (results ++ [tag_table url_column cols row t])%list in
        _ ← emit (Sleep 1);
        mret results'
      else mret results
  | None => mret results
  end.

(** [for idx, row in df.iterrows()] *)
Fixpoint for_each_row (web : Web) (url_column : string) (cols : list string)
    (todo : list (gmap string (option string))) (results : list (Frame Cell))
  : IO (list (Frame Cell)) :=
  match todo with
  | [] => mret results
  | row :: rest =>
      results' ← process_row web url_column cols row results;
      for_each_row web url_column cols rest results'
  end.

(** The column names of all frames, in order of first appearance. *)
Definition union_columns (frames : list (Frame Cell)) : list string :=
  fold_left
    (fun acc c => if decide (c ∈ acc) then acc else (acc ++ [c])%list)
    (concat (map columns frames)) [].

(** A row laid out on the columns [cols]; a column it lacks is missing. *)
Definition reindex (cols : list string) (r : gmap string Cell) : gmap string Cell :=
  list_to_map (map (fun c => (c, cell r c)) cols).

(** [pd.concat(frames, ignore_index=True)] *)
Definition pd_concat (frames : list (Frame Cell)) : Frame Cell :=
  let cols := union_columns frames in
  {| columns := cols;
     rows := concat (map (fun f => map (reindex cols) (rows f)) frames) |}.

Definition process_kursziele_from_excel (fs : FileSystem) (web : Web)
    (excel_path sheet_name url_column : string) : IO (Frame Cell) :=
  IO_try
    (df ← lift (fs excel_path sheet_name);
     df ← lift (clean_urls url_column df);
     results ← for_each_row web url_column (columns df) (rows df) [];
     match results with
     | [] => mret empty_frame
     | _ => mret (pd_concat results)
     end)
    [ (is_FileNotFoundError, fun _ => mret empty_frame);
      (any_Exception, fun _ => mret empty_frame) ].

(** ** [main]: the path of the output spreadsheet (line 191) *)

Definition output_path (excel_path : string) : string :=
  PyStr.replace ".xls" "_kursziele.xlsx"
    (PyStr.replace ".xlsx" "_kursziele.xlsx" excel_path).

(** ** The normaliser in the words of the specification

    "Strip the currency markers and spaces, delete every dot, turn every
    comma into a dot, parse as a float; absent when the input is absent or
    the text does not parse."  The separator steps are written character by
    character here, independently of [str.replace]. *)

Definition strip_markers_spec (raw : string) : string :=
  PyStr.delete_char " "
    (PyStr.replace "USD" "" (PyStr.replace "EUR" "" (PyStr.replace "€" "" raw))).

Definition numeral_spec (raw : string) : string :=
  PyStr.subst_char "," "." (PyStr.delete_char "." (strip_markers_spec raw)).

Definition normalize_spec (raw : option string) : option spec_float :=
  match raw with
  | None => None
  | Some txt =>
      match PyFloat.float (numeral_spec txt) with
      | Ok f => Some f
      | Raise _ => None
      end
  end.

(** The Python literal [m * 10^e] for a positive decimal, e.g. [1234.56] is
    [decimal 123456 (-2)]. *)
Definition decimal (m : N) (e : Z) : spec_float := PyFloat.of_decimal false m e.

(** ** Reading the batch runner row by row *)

(** What [get_kursziele_table] returns for an address: the selected frame,
    or nothing when the request or the selection raised. *)
Definition extracted (web : Web) (page_url : string) : option (Frame Cell) :=
  match web page_url with
  | Ok tables =>
      match select_table tables with
      | Ok found => found
      | Raise _ => None
      end
  | Raise _ => None
  end.

(** The Output Row set of one Input Row: the tagged frame when a table with
    at least one row was extracted, nothing when the row fails. *)
Definition output_rows (web : Web) (url_column : string) (cols : list string)
    (row : gmap string (option string)) : option (Frame Cell) :=
  match extracted web (row_url url_column row) with
  | Some t =>
      if (0 <? length (rows t))%nat
      then Some (tag_table url_column cols row t)
      else None
  | None => None
  end.

(** The events of one Input Row: its request, and the pause when it
    succeeded. *)
Definition row_events (web : Web) (url_column : string) (cols : list string)
    (row : gmap string (option string)) : list Event :=
  Request (row_url url_column row) ::
  match output_rows web url_column cols row with
  | Some _ => [Sleep 1]
  | None => []
  end.

(** The result of [apply_parse_kursziel] on one row. *)
Definition normalised_row (kursziel_col : string) (r : gmap string (option string))
  : gmap string Cell :=
  <[kursziel_col := Norm (normalize_spec (raw_cell r kursziel_col))]> (Raw <$> r).

(** What the batch returns for the collected Output Row sets. *)
Definition result_table (sets : list (Frame Cell)) : Frame Cell :=
  match sets with
  | [] => empty_frame
  | _ => pd_concat sets
  end.

(** An Input Row fails when it yields no Output Row set. *)
Definition row_fails (web : Web) (uc : string) (cols : list string)
    (row : gmap string (option string)) : bool :=
  match output_rows web uc cols row with
  | Some _ => false
  | None => true
  end.

(** The tag of lines 146-150 on one row of the extracted table. *)
Definition copy_cell (uc : string) (row : gmap string (option string))
    (o : gmap string Cell) (col : string) : gmap string Cell :=
  if decide (col = uc) then o else <[col := Raw (raw_cell row col)]> o.

Definition tag_row (uc : string) (cols : list string)
    (row : gmap string (option string)) (r : gmap string Cell) : gmap string Cell :=
  fold_left (copy_cell uc row) cols
    (<["Source_URL" := Raw (Some (row_url uc row))]> r).

(** The origin of every Output Row, in the order of the batch: for each
    Input Row in turn, and for each row of the table extracted from its
    address in turn, the pair of the two. *)
Definition row_origins (web : Web) (uc : string)
    (inputs : list (gmap string (option string)))
  : list (gmap string (option string) * gmap string Cell) :=
  flat_map
    (fun row =>
       match extracted web (row_url uc row) with
       | Some t => map (pair row) (rows t)
       | None => []
       end)
    inputs.

(** A table before the winner: its header lacks the keyword, or it parses to
    a frame without a keyword column. *)
Definition passed_over (p : Table) : Prop :=
  header_has_keyword p = false \/
  exists dfp, load_frame p = Ok dfp /\ find_kursziel_col (columns dfp) = None.

(** ** Example pages *)

(** The cells of the example pages hold a price with its currency sign, a
    text that pandas hands on as it stands. *)

(** A table whose header cell reads [<th>Kurs <b>ziel</b></th>]: the cell
    text with [strip=True] is "Kursziel", the label pandas gives the column
    is "Kurs ziel". *)
Definition table_split_header : Table :=
  {| thead := Some ["Analyst"; "Kursziel"];
     first_tr := Some ["Analyst"; "Kursziel"];
     read_html := Ok {| raw_columns := [LStr "Analyst"; LStr "Kurs ziel"];
                        raw_rows := [[Some "Bank A"; Some "100,00 €"]] |} |}.

(** A table with a [<thead>] of "Institut", "Kursziel", "Datum" and one
    row. *)
Definition table_kursziel : Table :=
  {| thead := Some ["Institut"; "Kursziel"; "Datum"];
     first_tr := Some ["Institut"; "Kursziel"; "Datum"];
     read_html := Ok {| raw_columns := [LStr "Institut"; LStr "Kursziel"; LStr "Datum"];
                        raw_rows := [[Some "Bank B"; Some "123,50 €"; Some "2024-01-01"]] |} |}.

(** [<table></table>]: no header, no row; [pd.read_html] finds no table in
    it and raises [ValueError]. *)
Definition table_empty : Table :=
  {| thead := None; first_tr := None; read_html := Raise ValueError |}.

(** A table without [<th>] cells: pandas numbers the columns. *)
Definition table_unlabelled : Table :=
  {| thead := None;
     first_tr := Some ["Siemens"; "180,00 €"];
     read_html := Ok {| raw_columns := [LInt 0; LInt 1];
                        raw_rows := [[Some "Siemens"; Some "180,00 €"]] |} |}.

(** A table with a header that has no keyword. *)
Definition table_other : Table :=
  {| thead := None;
     first_tr := Some ["Name"; "Kurs"];
     read_html := Ok {| raw_columns := [LStr "Name"; LStr "Kurs"];
                        raw_rows := [[Some "Siemens"; Some "180,00 €"]] |} |}.

(** A table with a keyword header and no data row. *)
Definition table_no_rows : Table :=
  {| thead := Some ["Institut"; "Kursziel"];
     first_tr := Some ["Institut"; "Kursziel"];
     read_html := Ok {| raw_columns := [LStr "Institut"; LStr "Kursziel"];
                        raw_rows := [] |} |}.

(** A table whose target-price cell holds a text that is no number
    ("k.A.", keine Angabe). *)
Definition table_text_cell : Table :=
  {| thead := Some ["Institut"; "Kursziel"];
     first_tr := Some ["Institut"; "Kursziel"];
     read_html := Ok {| raw_columns := [LStr "Institut"; LStr "Kursziel"];
                        raw_rows := [[Some "Bank C"; Some "k.A."]] |} |}.

(** A web with one page, at [page_url]. *)
Definition one_page (page_url : string) (tables : list Table) : Web :=
  fun u => if String.eqb u page_url then Ok tables else Raise RequestException.

(** ** Example batches *)

(** A sheet with two addresses, the first with blanks around it, and one row
    without an address. *)
Definition sheet_wkn : Frame (option string) :=
  {| columns := ["Url"; "WKN"];
     rows := [ list_to_map [("Url", Some " u "); ("WKN", Some "703000")];
               list_to_map [("Url", Some "v"); ("WKN", Some "716460")];
               list_to_map [("Url", None); ("WKN", Some "514000")] ] |}.

(** A sheet with one address. *)
Definition sheet_one : Frame (option string) :=
  {| columns := ["Url"];
     rows := [ list_to_map [("Url", Some "u")] ] |}.

(** A sheet that has a column named [Source_URL] of its own. *)
Definition sheet_source_url : Frame (option string) :=
  {| columns := ["Url"; "Source_URL"];
     rows := [ list_to_map [("Url", Some "u"); ("Source_URL", Some "intern")] ] |}.

(** A file system with one workbook. *)
Definition one_file (path : string) (df : Frame (option string)) : FileSystem :=
  fun p _ => if String.eqb p path then Ok df else Raise FileNotFoundError.

(** ** [main] (lines 174-197)

    [sys.argv], the line that [input] returns (or its exception), and
    [DataFrame.to_excel], which may raise, are parameters.  The value of
    [main] is the workbook it wrote, if any: its path and its table. *)

(** [DataFrame.empty]: an axis of length 0. *)
Definition frame_is_empty {C : Type} (df : Frame C) : bool :=
  match rows df, columns df with
  | [], _ => true
  | _, [] => true
  | _, _ => false
  end.

Definition Writer : Type := string -> Frame Cell -> result unit.

Definition main (argv : list string) (stdin : result string) (fs : FileSystem)
    (web : Web) (to_excel : Writer) : IO (option (string * Frame Cell)) :=
  excel_path ← match argv with
               | _ :: arg :: _ => mret arg
               | _ => line ← lift stdin; mret (PyStr.strip line)
               end;
  if String.eqb excel_path "" then mret None
  else
    result ← process_kursziele_from_excel fs web excel_path "Kursziele_Input" "Url";
    if negb (frame_is_empty result) then
      _ ← lift (to_excel (output_path excel_path) result);
      mret (Some (output_path excel_path, result))
    else mret None.

(** ** [create_example_excel.py]

    The script builds a frame of three addresses and writes it as the only
    sheet of a new workbook. *)

Definition example_data : Frame (option string) :=
  {| columns := ["Url"; "WKN"; "Bezeichnung"];
     rows :=
       [ list_to_map [("Url", Some "https://www.finanzen.net/kursziele/703000");
                      ("WKN", Some "703000");
                      ("Bezeichnung", Some "Rheinmetall AG")];
         list_to_map [("Url", Some "https://www.finanzen.net/kursziele/716460");
                      ("WKN", Some "716460");
                      ("Bezeichnung", Some "SAP SE")];
         list_to_map [("Url", Some "https://www.finanzen.net/kursziele/514000");
                      ("WKN", Some "514000");
                      ("Bezeichnung", Some "Deutsche Bank AG")] ] |}.

(** [df.to_excel(path, sheet_name=sheet, index=False)] on the file system:
    the workbook at [path] is replaced by one that has the sheet [sheet]
    only. *)
Definition to_excel_sheet (fs : FileSystem) (path sheet : string)
    (df : Frame (option string)) : FileSystem :=
  fun p s =>
    if String.eqb p path
    then if String.eqb s sheet then Ok df else Raise ValueError
    else fs p s.

Definition create_example_excel (fs : FileSystem) : FileSystem :=
  to_excel_sheet fs "Kursziele_Input.xlsx" "Kursziele_Input" example_data.

(** ** [test_kursziel_extractor.py]

    The script with its import succeeding; its value is the exit status. *)

Definition test_url : string := "https://www.finanzen.net/kursziele/703000".

Definition test_kursziel_extractor (web : Web) : IO nat :=
  IO_try
    (result ← get_kursziele_table web test_url;
     match result with
     | Some df => if negb (frame_is_empty df) then mret 0 else mret 1
     | None => mret 1
     end)
    [ (any_Exception, fun _ => mret 1) ].

(** ** Vocabulary of the further properties *)

(** Every character of [s] satisfies [P]. *)
Fixpoint all_chars (P : ascii -> bool) (s : string) : bool :=
  match s with
  | "" => true
  | String c s' => P c && all_chars P s'
  end.

(** The number a run of digits denotes, continuing from [acc]. *)
Fixpoint digits_value (acc : N) (s : string) : N :=
  match s with
  | "" => acc
  | String c s' => digits_value (acc * 10 + PyFloat.digit_val c)%N s'
  end.

(** A table whose header row is made of [<td>] cells: the code reads the
    keyword in the first row, pandas finds no header and numbers the
    columns. *)
Definition table_td_header : Table :=
  {| thead := None;
     first_tr := Some ["Analyst"; "Kursziel"];
     read_html := Ok {| raw_columns := [LInt 0; LInt 1];
                        raw_rows := [[Some "Analyst"; Some "Kursziel"];
                                     [Some "Bank A"; Some "100,00 €"]] |} |}.

(** A digit or a thousands dot. *)
Definition digit_or_dot (c : ascii) : bool :=
  PyFloat.is_digit c || Ascii.eqb c ".".

(** The addresses requested and the seconds slept in a trace. *)
Definition requests (tr : list Event) : list string :=
  omap (fun ev => match ev with Request u => Some u | Sleep _ => None end) tr.

Fixpoint seconds_slept (tr : list Event) : nat :=
  match tr with
  | [] => 0
  | Sleep n :: tr' => n + seconds_slept tr'
  | Request _ :: tr' => seconds_slept tr'
  end.

(** The cleaning of lines 130-132 on one row of the workbook. *)
Definition clean_row (uc : string) (r0 : gmap string (option string))
  : option (gmap string (option string)) :=
  match raw_cell r0 uc with
  | Some s =>
      if String.eqb (PyStr.strip s) "" then None
      else Some (<[uc := Some (PyStr.strip s)]> r0)
  | None => None
  end.

(** * Properties *)

Lemma startswith_char (a c : ascii) (s : string) :
  PyStr.startswith (String c s) (String a "") = Ascii.eqb c a.
Proof.
  simpl. destruct (Ascii.eqb c a); [ now destruct s | reflexivity ].
Qed.

Lemma replace_char_delete (a : ascii) (s : string) :
  PyStr.replace (String a "") "" s = PyStr.delete_char a s.
Proof.
  unfold PyStr.replace.
  induction s as [| c s IH]; [ reflexivity | ].
  cbn [PyStr.replace_scan PyStr.delete_char].
  rewrite startswith_char. cbn [String.length Nat.sub].
  destruct (Ascii.eqb c a); cbn; now rewrite IH.
Qed.

Lemma replace_char_subst (a b : ascii) (s : string) :
  PyStr.replace (String a "") (String b "") s = PyStr.subst_char a b s.
Proof.
  unfold PyStr.replace.
  induction s as [| c s IH]; [ reflexivity | ].
  cbn [PyStr.replace_scan PyStr.subst_char].
  rewrite startswith_char. cbn [String.length Nat.sub].
  destruct (Ascii.eqb c a); cbn; now rewrite IH.
Qed.

Lemma norm_numeral_spec (txt : string) : norm txt = numeral_spec txt.
Proof.
  unfold norm, numeral_spec, stripped, strip_markers_spec.
  now rewrite replace_char_subst, !replace_char_delete.
Qed.

(** [float] raises nothing but [ValueError]. *)
Lemma float_raises_ValueError (s : string) (e : exn) :
  PyFloat.float s = Raise e -> e = ValueError.
Proof.
  unfold PyFloat.float.
  destruct (PyFloat.drop_underscores _ _) as [t |]; [ | congruence ].
  destruct (PyFloat.read_sign t) as [neg u].
  destruct (PyFloat.read_inf_or_nan neg u); [ congruence | ].
  destruct (PyFloat.read_number neg u); congruence.
Qed.

Lemma parse_kursziel_text (txt : string) :
  parse_kursziel (Some txt) =
  match PyFloat.float (norm txt) with
  | Ok f => Ok (Some f)
  | Raise _ => Ok None
  end.
Proof.
  unfold parse_kursziel.
  destruct (PyFloat.float (norm txt)) as [f | e] eqn:E; [ reflexivity | ].
  apply float_raises_ValueError in E. now subst e.
Qed.

(** The normaliser never raises. *)
Lemma parse_kursziel_Ok (value : option string) :
  exists r, parse_kursziel value = Ok r.
Proof.
  destruct value as [txt |]; [ | now exists None ].
  rewrite parse_kursziel_text. destruct (PyFloat.float (norm txt)); eauto.
Qed.

(** C1, as amended: the normaliser computes what the specification's steps
    describe (spaces and the markers removed, every dot deleted, every comma
    turned into a dot, then [float]); "1.234,56", "1234,56" and "1.234,56 €"
    give 1234.56; "1234.56 USD" gives 123456, because its dot is deleted like
    a thousands separator; "1,234" gives 1.234 and not 1234.  The float
    1234.56 is the binary64 number 5429652300748554 * 2^-42. *)
Theorem C1_normalize_european :
  (forall raw, parse_kursziel raw = Ok (normalize_spec raw)) /\
  parse_kursziel (Some "1.234,56") = Ok (Some (decimal 123456 (-2))) /\
  parse_kursziel (Some "1234,56") = Ok (Some (decimal 123456 (-2))) /\
  parse_kursziel (Some "1.234,56 €") = Ok (Some (decimal 123456 (-2))) /\
  parse_kursziel (Some "1234.56 USD") = Ok (Some (decimal 123456 0)) /\
  parse_kursziel (Some "1,234") = Ok (Some (decimal 1234 (-3))) /\
  decimal 1234 (-3) <> decimal 1234 0 /\
  decimal 123456 (-2) = S754_finite false 5429652300748554 (-42).
Proof.
  split.
  - intros [txt |]; [ | reflexivity ].
    rewrite parse_kursziel_text, norm_numeral_spec. cbn [normalize_spec].
    now destruct (PyFloat.float (numeral_spec txt)).
  - repeat split; try (vm_compute; reflexivity).
    vm_compute. discriminate.
Qed.

(** C1, as stated, fails at "1234.56 USD": the result is not 1234.56.  Of
    the white space inside a numeral only the space character is removed: a
    space between the digits is dropped, a TAB there makes the text
    non-numeric. *)
Lemma C1_counterexample :
  parse_kursziel (Some "1234.56 USD") <> Ok (Some (decimal 123456 (-2))) /\
  parse_kursziel (Some "1 234,56") = Ok (Some (decimal 123456 (-2))) /\
  parse_kursziel (Some (String "1" (String "009" "234,56"))) = Ok None.
Proof.
  split; [ vm_compute; discriminate | ].
  split; vm_compute; reflexivity.
Qed.

(** C2: the normaliser is total and never raises; an absent input gives an
    absent result, and so does every text whose transformed form [float]
    rejects, such as the empty string and non-numeric text. *)
Theorem C2_normalize_total :
  (forall value, exists r, parse_kursziel value = Ok r) /\
  parse_kursziel None = Ok None /\
  (forall txt e, PyFloat.float (norm txt) = Raise e ->
                 parse_kursziel (Some txt) = Ok None) /\
  parse_kursziel (Some "") = Ok None /\
  parse_kursziel (Some "n/a") = Ok None /\
  parse_kursziel (Some "kein Kursziel") = Ok None.
Proof.
  split; [ exact parse_kursziel_Ok | ].
  split; [ reflexivity | ].
  split.
  - intros txt e E. rewrite parse_kursziel_text. now rewrite E.
  - repeat split; vm_compute; reflexivity.
Qed.

(** C8, at the failing input: for "foo.xlsx" the second [replace] matches
    the ".xls" inside the extension the first one has just written, so the
    path is not "foo_kursziele.xlsx"; a path that has no ".xls" in it comes
    back unchanged.  A ".xls" path is handled as described. *)
Theorem C8_output_path_xlsx :
  output_path "foo.xlsx" = "foo_kursziele_kursziele.xlsxx" /\
  output_path "foo.xlsx" <> "foo_kursziele.xlsx" /\
  output_path "foo.XLSX" = "foo.XLSX" /\
  output_path "foo.xls" = "foo_kursziele.xlsx".
Proof.
  repeat split; try (vm_compute; reflexivity).
  vm_compute. discriminate.
Qed.

(** ** The table selector *)

Lemma parse_kursziel_spec (raw : option string) :
  parse_kursziel raw = Ok (normalize_spec raw).
Proof.
  destruct raw as [txt |]; [ | reflexivity ].
  rewrite parse_kursziel_text, norm_numeral_spec. cbn [normalize_spec].
  now destruct (PyFloat.float (numeral_spec txt)).
Qed.

Lemma mapM_total {A B : Type} (f : A -> result B) (g : A -> B) (l : list A) :
  (forall a, f a = Ok (g a)) -> mapM f l = Ok (map g l).
Proof.
  intros Hf. induction l as [| a l IH]; [ reflexivity | ].
  cbn [mapM map]. rewrite Hf, IH. reflexivity.
Qed.

Lemma apply_parse_kursziel_Ok (kc : string) (df : Frame (option string)) :
  apply_parse_kursziel kc df =
  Ok {| columns := columns df; rows := map (normalised_row kc) (rows df) |}.
Proof.
  unfold apply_parse_kursziel.
  rewrite (mapM_total _ (normalised_row kc)); [ reflexivity | ].
  intros r. now rewrite parse_kursziel_spec.
Qed.

Lemma find_kursziel_col_first (cols : list string) (kc : string) :
  find_kursziel_col cols = Some kc ->
  exists before after,
    cols = (before ++ kc :: after)%list /\
    PyStr.contains keyword (PyStr.lower kc) = true /\
    Forall (fun c => PyStr.contains keyword (PyStr.lower c) = false) before.
Proof.
  unfold find_kursziel_col.
  induction cols as [| c cols IH]; [ discriminate | ].
  cbn [List.find].
  destruct (PyStr.contains keyword (PyStr.lower c)) eqn:Ec.
  - intros [= <-]. exists [], cols. auto.
  - intros H. destruct (IH H) as (before & after & -> & Hk & Hb).
    exists (c :: before), after. auto.
Qed.

Lemma find_kursziel_col_truthy (cols : list string) (kc : string) :
  find_kursziel_col cols = Some kc -> String.eqb kc "" = false.
Proof.
  intros H. destruct (find_kursziel_col_first _ _ H) as (_ & _ & _ & Hk & _).
  destruct kc; [ discriminate Hk | reflexivity ].
Qed.

Lemma search_tables_skip (table : Table) (rest : list Table) :
  header_has_keyword table = false ->
  search_tables (table :: rest) = search_tables rest.
Proof.
  unfold header_has_keyword. cbn [search_tables].
  destruct (headers_text table) as [hs |]; [ | reflexivity ].
  now intros ->.
Qed.

Lemma search_tables_head (table : Table) (rest : list Table)
    (df : Frame (option string)) :
  header_has_keyword table = true ->
  load_frame table = Ok df ->
  search_tables (table :: rest) =
  match find_kursziel_col (columns df) with
  | Some kc =>
      Ok (Some {| columns := columns df; rows := map (normalised_row kc) (rows df) |})
  | None => search_tables rest
  end.
Proof.
  unfold header_has_keyword. cbn [search_tables].
  destruct (headers_text table) as [hs |]; [ | discriminate ].
  intros -> ->. cbn.
  destruct (find_kursziel_col (columns df)) as [kc |] eqn:Ek; [ | reflexivity ].
  rewrite (find_kursziel_col_truthy _ _ Ek), apply_parse_kursziel_Ok.
  reflexivity.
Qed.

Lemma search_tables_none (tables : list Table) :
  Forall (fun t => header_has_keyword t = false) tables ->
  search_tables tables = Ok None.
Proof.
  induction 1 as [| t rest Ht _ IH]; [ reflexivity | ].
  now rewrite search_tables_skip.
Qed.

Lemma search_tables_passed_over (pre rest : list Table) :
  Forall passed_over pre ->
  search_tables (pre ++ rest) = search_tables rest.
Proof.
  induction 1 as [| p pre Hp _ IH]; [ reflexivity | ].
  cbn [app]. destruct Hp as [Hp | (dfp & Hl & Hf)].
  - now rewrite search_tables_skip.
  - destruct (header_has_keyword p) eqn:Hh.
    + rewrite (search_tables_head _ _ dfp Hh Hl), Hf. exact IH.
    + now rewrite search_tables_skip.
Qed.

Lemma get_kursziele_table_extracted (web : Web) (page_url : string) (tr : list Event) :
  get_kursziele_table web page_url tr =
  (Ok (extracted web page_url), (tr ++ [Request page_url])%list).
Proof.
  unfold get_kursziele_table, IO_try, fetch_tables, extracted.
  unfold mbind, IO_bind, emit, lift.
  destruct (web page_url) as [tables | e]; cbn.
  - destruct (select_table tables) as [found | e]; cbn; [ reflexivity | ].
    now destruct e.
  - now destruct e.
Qed.


Lemma normalised_row_cells (kc : string) (r : gmap string (option string)) :
  normalised_row kc r !! kc = Some (Norm (normalize_spec (raw_cell r kc))) /\
  forall c, c <> kc -> normalised_row kc r !! c = Raw <$> (r !! c).
Proof.
  unfold normalised_row. split.
  - apply lookup_insert_eq.
  - intros c Hc. rewrite lookup_insert_ne by congruence. apply lookup_fmap.
Qed.




Lemma select_table_fallback (table0 : Table) (rest : list Table) :
  Forall (fun t => header_has_keyword t = false) (table0 :: rest) ->
  select_table (table0 :: rest) =
  Ok match load_frame table0 with
     | Ok df => Some (as_parsed df)
     | Raise _ => None
     end.
Proof.
  intros Hno. unfold select_table.
  rewrite (search_tables_none _ Hno). cbn.
  now destruct (load_frame table0).
Qed.

Lemma as_parsed_cells (df : Frame (option string)) :
  columns (as_parsed df) = columns df /\
  Forall2 (fun o r => forall c, o !! c = Raw <$> (r !! c))
    (rows (as_parsed df)) (rows df).
Proof.
  split; [ reflexivity | ].
  cbn [as_parsed rows].
  induction (rows df) as [| r l IH]; constructor; [ | exact IH ].
  intros c. apply lookup_fmap.
Qed.

(** C4, as amended: a page with no table gives nothing; when no table's
    header has the keyword, the selector parses the first table of the list
    and returns it with no matched column, every cell left as parsed, and it
    gives nothing when that table cannot be parsed into a frame with text
    labels. *)
Theorem C4_selector_fallback (web : Web) (page_url : string) (tr : list Event)
    (tables : list Table) :
  web page_url = Ok tables ->
  Forall (fun t => header_has_keyword t = false) tables ->
  fst (get_kursziele_table web page_url tr) =
    Ok match tables with
       | [] => None
       | table0 :: _ =>
           match load_frame table0 with
           | Ok df => Some (as_parsed df)
           | Raise _ => None
           end
       end /\
  forall df,
    columns (as_parsed df) = columns df /\
    Forall2 (fun o r => forall c, o !! c = Raw <$> (r !! c))
      (rows (as_parsed df)) (rows df).
Proof.
  intros Hweb Hno. split; [ | exact as_parsed_cells ].
  rewrite get_kursziele_table_extracted. cbn [fst]. unfold extracted.
  rewrite Hweb. destruct tables as [| table0 rest]; [ reflexivity | ].
  now rewrite (select_table_fallback _ _ Hno).
Qed.

Lemma C4_witness :
  fst (get_kursziele_table (one_page "u" []) "u" []) = Ok None /\
  fst (get_kursziele_table (one_page "u" [table_other; table_empty]) "u" []) =
    Ok (Some {| columns := ["Name"; "Kurs"];
                rows := [list_to_map [("Name", Raw (Some "Siemens"));
                                      ("Kurs", Raw (Some "180,00 €"))]] |}).
Proof.
  split.
  - apply (C4_selector_fallback (one_page "u" []) "u" [] []);
      [ reflexivity | constructor ].
  - apply (C4_selector_fallback (one_page "u" [table_other; table_empty]) "u" []
               [table_other; table_empty]);
      [ reflexivity | repeat constructor ].
Defined.

(** C4, as stated, fails on a page whose only table is empty, and on a page
    whose first table has no header cells: the list is not empty, no header
    has the keyword, and the selector returns nothing. *)
Lemma C4_counterexample :
  header_has_keyword table_empty = false /\
  fst (get_kursziele_table (one_page "u" [table_empty]) "u" []) = Ok None /\
  header_has_keyword table_unlabelled = false /\
  fst (get_kursziele_table (one_page "u" [table_unlabelled]) "u" []) = Ok None.
Proof. repeat split. Qed.

(** ** The batch runner *)

Lemma process_row_spec (web : Web) (uc : string) (cols : list string)
    (row : gmap string (option string)) (results : list (Frame Cell))
    (tr : list Event) :
  process_row web uc cols row results tr =
  (Ok (results ++ option_list (output_rows web uc cols row))%list,
   (tr ++ row_events web uc cols row)%list).
Proof.
  unfold process_row, row_events, output_rows.
  unfold mbind, IO_bind. rewrite get_kursziele_table_extracted.
  destruct (extracted web (row_url uc row)) as [t |];
    [ destruct (0 <? length (rows t))%nat | ]; cbn.
  - unfold emit. cbn. now rewrite <- app_assoc.
  - now rewrite app_nil_r.
  - now rewrite app_nil_r.
Qed.

Lemma for_each_row_spec (web : Web) (uc : string) (cols : list string)
    (todo : list (gmap string (option string))) (results : list (Frame Cell))
    (tr : list Event) :
  for_each_row web uc cols todo results tr =
  (Ok (results ++ omap (output_rows web uc cols) todo)%list,
   (tr ++ concat (map (row_events web uc cols) todo))%list).
Proof.
  revert results tr.
  induction todo as [| row rest IH]; intros results tr.
  - cbn. now rewrite !app_nil_r.
  - cbn [for_each_row]. unfold mbind at 1, IO_bind at 1.
    rewrite process_row_spec, IH. cbn [map concat].
    rewrite <- !app_assoc. f_equal. f_equal. f_equal.
    change (omap (output_rows web uc cols) (row :: rest))
      with (match output_rows web uc cols row with
            | Some y => y :: omap (output_rows web uc cols) rest
            | None => omap (output_rows web uc cols) rest
            end).
    now destruct (output_rows web uc cols row).
Qed.

Lemma process_spec (fs : FileSystem) (web : Web) (path sheet uc : string)
    (tr : list Event) (df inputs : Frame (option string)) :
  fs path sheet = Ok df ->
  clean_urls uc df = Ok inputs ->
  process_kursziele_from_excel fs web path sheet uc tr =
  (Ok (result_table (omap (output_rows web uc (columns inputs)) (rows inputs))),
   (tr ++ concat (map (row_events web uc (columns inputs)) (rows inputs)))%list).
Proof.
  intros Hfs Hclean.
  unfold process_kursziele_from_excel, IO_try.
  unfold mbind, IO_bind, lift. rewrite Hfs, Hclean.
  rewrite for_each_row_spec. cbn [app].
  unfold result_table.
  now destruct (omap (output_rows web uc (columns inputs)) (rows inputs)).
Qed.

Lemma process_Ok (fs : FileSystem) (web : Web) (path sheet uc : string)
    (tr : list Event) :
  exists result tr',
    process_kursziele_from_excel fs web path sheet uc tr = (Ok result, tr').
Proof.
  destruct (fs path sheet) as [df | e] eqn:Hfs.
  - destruct (clean_urls uc df) as [inputs | e] eqn:Hclean.
    + rewrite (process_spec _ _ _ _ _ _ df inputs Hfs Hclean). eauto.
    + unfold process_kursziele_from_excel, IO_try.
      unfold mbind, IO_bind, lift. rewrite Hfs, Hclean.
      exists empty_frame, tr. now destruct e.
  - unfold process_kursziele_from_excel, IO_try.
    unfold mbind, IO_bind, lift. rewrite Hfs.
    exists empty_frame, tr. now destruct e.
Qed.

(** *** Frames: columns and cells *)

Lemma rows_copy_row_columns (uc : string) (cols : list string)
    (row : gmap string (option string)) (t : Frame Cell) :
  rows (copy_row_columns uc cols row t) =
  map (fun r => fold_left (copy_cell uc row) cols r) (rows t).
Proof.
  unfold copy_row_columns. revert t.
  induction cols as [| col cols IH]; intros t; cbn [fold_left].
  - now rewrite map_id.
  - rewrite IH.
    assert (Hstep :
      rows (if decide (col = uc) then t
            else set_column col (Raw (raw_cell row col)) t) =
      map (fun r => copy_cell uc row r col) (rows t)).
    { unfold copy_cell.
      destruct (decide (col = uc)); [ now rewrite map_id | reflexivity ]. }
    rewrite Hstep, map_map. reflexivity.
Qed.

Lemma rows_tag_table (uc : string) (cols : list string)
    (row : gmap string (option string)) (t : Frame Cell) :
  rows (tag_table uc cols row t) = map (tag_row uc cols row) (rows t).
Proof.
  unfold tag_table. rewrite rows_copy_row_columns.
  cbn [set_column rows]. now rewrite map_map.
Qed.

Lemma lookup_copy_cells (uc : string) (row : gmap string (option string))
    (cols : list string) (o : gmap string Cell) (c : string) :
  fold_left (copy_cell uc row) cols o !! c =
  if decide (c ∈ cols /\ c <> uc) then Some (Raw (raw_cell row c)) else o !! c.
Proof.
  revert o. induction cols as [| col cols IH]; intros o; cbn [fold_left].
  - case_decide as H; [ | reflexivity ].
    destruct H as [H _]. now apply elem_of_nil in H.
  - rewrite IH. unfold copy_cell.
    destruct (decide (c ∈ cols /\ c <> uc)) as [[Hin Hne] | Hno].
    + rewrite decide_True; [ reflexivity | ].
      split; [ now apply elem_of_cons; right | exact Hne ].
    + destruct (decide (col = uc)) as [-> | Hcol].
      * rewrite decide_False; [ reflexivity | ].
        intros [Hin Hne]. apply elem_of_cons in Hin as [-> | Hin]; tauto.
      * destruct (decide (c = col)) as [-> | Hc].
        -- rewrite lookup_insert_eq.
           rewrite decide_True; [ reflexivity | ].
           split; [ apply elem_of_cons; now left | exact Hcol ].
        -- rewrite lookup_insert_ne by congruence.
           rewrite decide_False; [ reflexivity | ].
           intros [Hin Hne]. apply elem_of_cons in Hin as [-> | Hin]; tauto.
Qed.

Lemma lookup_tag_row (uc : string) (cols : list string)
    (row : gmap string (option string)) (r : gmap string Cell) (c : string) :
  tag_row uc cols row r !! c =
  if decide (c ∈ cols /\ c <> uc) then Some (Raw (raw_cell row c))
  else if decide (c = "Source_URL") then Some (Raw (Some (row_url uc row)))
  else r !! c.
Proof.
  unfold tag_row. rewrite lookup_copy_cells.
  case_decide; [ reflexivity | ].
  case_decide as Hc.
  - subst c. apply lookup_insert_eq.
  - now rewrite lookup_insert_ne by congruence.
Qed.

Lemma columns_set_column (c c' : string) (v : Cell) (df : Frame Cell) :
  c' ∈ columns (set_column c v df) <-> c' ∈ columns df \/ c' = c.
Proof.
  cbn [set_column columns]. case_decide as Hin.
  - split; [ tauto | ]. intros [H | ->]; assumption.
  - rewrite elem_of_app, list_elem_of_singleton. tauto.
Qed.

Lemma columns_copy_row_columns (uc : string) (cols : list string)
    (row : gmap string (option string)) (t : Frame Cell) (c : string) :
  c ∈ columns (copy_row_columns uc cols row t) <->
  c ∈ columns t \/ (c ∈ cols /\ c <> uc).
Proof.
  unfold copy_row_columns. revert t.
  induction cols as [| col cols IH]; intros t; cbn [fold_left].
  - rewrite elem_of_nil. tauto.
  - rewrite IH, elem_of_cons. destruct (decide (col = uc)) as [-> | Hcol].
    + split; [ tauto | ]. intros [H | [[-> | H] Hne]]; tauto.
    + rewrite columns_set_column.
      split; [ | tauto ].
      intros [[H | ->] | H]; tauto.
Qed.

Lemma columns_tag_table (uc : string) (cols : list string)
    (row : gmap string (option string)) (t : Frame Cell) (c : string) :
  c ∈ columns (tag_table uc cols row t) <->
  c ∈ columns t \/ c = "Source_URL" \/ (c ∈ cols /\ c <> uc).
Proof.
  unfold tag_table. rewrite columns_copy_row_columns, columns_set_column. tauto.
Qed.

Lemma reindex_lookup (cols : list string) (r : gmap string Cell) (c : string) :
  c ∈ cols -> reindex cols r !! c = Some (cell r c).
Proof.
  unfold reindex. induction cols as [| c0 cols IH]; intros Hin.
  - now apply elem_of_nil in Hin.
  - cbn [map]. rewrite list_to_map_cons.
    destruct (decide (c0 = c)) as [-> | Hne].
    + apply lookup_insert_eq.
    + rewrite lookup_insert_ne by exact Hne.
      apply IH. apply elem_of_cons in Hin as [-> | Hin]; [ congruence | exact Hin ].
Qed.

Lemma cell_reindex (cols : list string) (r : gmap string Cell) (c : string) :
  c ∈ cols -> cell (reindex cols r) c = cell r c.
Proof.
  intros Hin. unfold cell at 1. now rewrite reindex_lookup.
Qed.

Lemma union_step_elem (l acc : list string) (c : string) :
  c ∈ fold_left
        (fun acc c => if decide (c ∈ acc) then acc else (acc ++ [c])%list) l acc
  <-> c ∈ acc \/ c ∈ l.
Proof.
  revert acc. induction l as [| x l IH]; intros acc; cbn [fold_left].
  - rewrite elem_of_nil. tauto.
  - rewrite IH, elem_of_cons. case_decide as Hx.
    + split; [ tauto | ]. intros [H | [-> | H]]; tauto.
    + rewrite elem_of_app, list_elem_of_singleton. tauto.
Qed.

Lemma union_columns_elem (frames : list (Frame Cell)) (c : string) :
  c ∈ union_columns frames <-> exists f, f ∈ frames /\ c ∈ columns f.
Proof.
  unfold union_columns. rewrite union_step_elem, elem_of_nil.
  rewrite list_elem_of_In, in_concat. split.
  - intros [[] | (l & Hl & Hc)].
    apply in_map_iff in Hl as (f & <- & Hf).
    exists f. now rewrite !list_elem_of_In.
  - intros (f & Hf & Hc). right. exists (columns f).
    split; [ apply in_map | ]; now apply list_elem_of_In.
Qed.

Lemma concat_rows_cells (cols : list string) (frames : list (Frame Cell)) :
  Forall2 (fun out r => forall c, c ∈ cols -> cell out c = cell r c)
    (concat (map (fun f => map (reindex cols) (rows f)) frames))
    (concat (map rows frames)).
Proof.
  induction frames as [| f frames IH]; cbn [map concat]; [ constructor | ].
  apply Forall2_app; [ | exact IH ].
  induction (rows f) as [| r l IHl]; constructor; [ | exact IHl ].
  intros c. apply cell_reindex.
Qed.

Lemma omap_length_fails {A B : Type} (f : A -> option B) (l : list A) :
  length (omap f l) =
  length l - length (List.filter (fun a => match f a with Some _ => false | None => true end) l).
Proof.
  assert (H : length (omap f l) +
              length (List.filter
                        (fun a => match f a with Some _ => false | None => true end) l)
              = length l).
  { induction l as [| a l IH]; [ reflexivity | ].
    change (omap f (a :: l))
      with (match f a with Some y => y :: omap f l | None => omap f l end).
    cbn [List.filter]. destruct (f a); cbn [length]; lia. }
  lia.
Qed.

Lemma omap_all_None {A B : Type} (f : A -> option B) (l : list A) :
  Forall (fun a => f a = None) l -> omap f l = [].
Proof.
  induction 1 as [| a l Ha _ IH]; [ reflexivity | ].
  change (omap f (a :: l))
    with (match f a with Some y => y :: omap f l | None => omap f l end).
  now rewrite Ha.
Qed.

Lemma result_table_cells (sets : list (Frame Cell)) :
  Forall2
    (fun out r => forall c, c ∈ columns (result_table sets) -> cell out c = cell r c)
    (rows (result_table sets)) (concat (map rows sets)) /\
  (forall c, c ∈ columns (result_table sets) <-> exists s, s ∈ sets /\ c ∈ columns s).
Proof.
  destruct sets as [| s0 sets].
  - split; [ constructor | ]. intros c. split.
    + intros H. now apply elem_of_nil in H.
    + intros (s & Hs & _). now apply elem_of_nil in Hs.
  - split.
    + apply concat_rows_cells.
    + intros c. apply union_columns_elem.
Qed.

(** C5: the Result Table is the concatenation, in input-row order, of the
    Output Row sets of the rows that succeed, cell for cell, on the columns
    of those sets; a batch of N rows of which K fail collects N-K sets; when
    every row fails the Result Table is the empty frame and the batch still
    returns normally. *)
Theorem C5_result_is_concatenation (fs : FileSystem) (web : Web)
    (path sheet uc : string) (tr : list Event) (df inputs : Frame (option string)) :
  fs path sheet = Ok df ->
  clean_urls uc df = Ok inputs ->
  let sets := omap (output_rows web uc (columns inputs)) (rows inputs) in
  exists result,
    fst (process_kursziele_from_excel fs web path sheet uc tr) = Ok result /\
    Forall2 (fun out r => forall c, c ∈ columns result -> cell out c = cell r c)
      (rows result) (concat (map rows sets)) /\
    (forall c, c ∈ columns result <-> exists s, s ∈ sets /\ c ∈ columns s) /\
    length sets =
      length (rows inputs) -
      length (List.filter (row_fails web uc (columns inputs)) (rows inputs)) /\
    (Forall (fun row => output_rows web uc (columns inputs) row = None) (rows inputs) ->
     result = empty_frame).
Proof.
  intros Hfs Hclean sets. exists (result_table sets).
  split; [ now rewrite (process_spec _ _ _ _ _ _ df inputs Hfs Hclean) | ].
  destruct (result_table_cells sets) as [Hcells Hcols].
  split; [ exact Hcells | split; [ exact Hcols | split ] ].
  - apply omap_length_fails.
  - intros Hall. unfold sets. now rewrite (omap_all_None _ _ Hall).
Qed.

Lemma C5_witness :
  exists result,
    fst (process_kursziele_from_excel (one_file "in.xlsx" sheet_wkn)
           (one_page "u" [table_kursziel]) "in.xlsx" "Kursziele_Input" "Url" [])
      = Ok result /\
    length (rows result) = 1.
Proof.
  destruct (C5_result_is_concatenation (one_file "in.xlsx" sheet_wkn)
              (one_page "u" [table_kursziel]) "in.xlsx" "Kursziele_Input" "Url" []
              sheet_wkn
              {| columns := ["Url"; "WKN"];
                 rows := [ list_to_map [("Url", Some "u"); ("WKN", Some "703000")];
                           list_to_map [("Url", Some "v"); ("WKN", Some "716460")] ] |})
    as (result & Hres & Hrows & _).
  - reflexivity.
  - reflexivity.
  - exists result. split; [ exact Hres | ].
    apply Forall2_length in Hrows. rewrite Hrows. reflexivity.
Defined.

Lemma output_rows_Some (web : Web) (uc : string) (cols : list string)
    (row : gmap string (option string)) (s : Frame Cell) :
  output_rows web uc cols row = Some s ->
  exists t, extracted web (row_url uc row) = Some t /\ s = tag_table uc cols row t.
Proof.
  unfold output_rows.
  destruct (extracted web (row_url uc row)) as [t |]; [ | discriminate ].
  destruct (0 <? length (rows t))%nat; [ | discriminate ].
  intros [= <-]. now exists t.
Qed.

(** Every row of the Result Table is a row of the tagged table of one Input
    Row, laid out on the columns of the Result Table. *)
Lemma result_rows_origin (web : Web) (uc : string) (cols : list string)
    (inputs : list (gmap string (option string))) (out : gmap string Cell) :
  let sets := omap (output_rows web uc cols) inputs in
  out ∈ rows (result_table sets) ->
  exists row t r0,
    row ∈ inputs /\
    extracted web (row_url uc row) = Some t /\
    r0 ∈ rows t /\
    out = reindex (columns (result_table sets)) (tag_row uc cols row r0) /\
    (forall c, c ∈ columns (tag_table uc cols row t) ->
               c ∈ columns (result_table sets)).
Proof.
  intros sets Hout.
  destruct (result_table_cells sets) as [_ Hcols].
  assert (Hrows : rows (result_table sets) =
                  concat (map (fun f => map (reindex (columns (result_table sets))) (rows f))
                              sets)).
  { destruct sets; reflexivity. }
  rewrite Hrows in Hout.
  apply list_elem_of_In, in_concat in Hout as (l & Hl & Hin).
  apply in_map_iff in Hl as (s & <- & Hs).
  apply in_map_iff in Hin as (r & <- & Hr).
  apply list_elem_of_In in Hs.
  pose proof Hs as Hs'.
  apply list_elem_of_omap in Hs' as (row & Hrow & Hsome).
  apply output_rows_Some in Hsome as (t & Ht & ->).
  rewrite rows_tag_table in Hr.
  apply in_map_iff in Hr as (r0 & <- & Hr0).
  exists row, t, r0.
  split; [ exact Hrow | split; [ exact Ht | split; [ now apply list_elem_of_In | ] ] ].
  split; [ reflexivity | ].
  intros c Hc. apply Hcols. now exists (tag_table uc cols row t).
Qed.

(** The rows of the collected Output Row sets are the tagged rows of their
    origins, in order. *)
Lemma output_rows_origins (web : Web) (uc : string) (cols : list string)
    (inputs : list (gmap string (option string))) :
  concat (map rows (omap (output_rows web uc cols) inputs)) =
  map (fun p => tag_row uc cols (fst p) (snd p)) (row_origins web uc inputs).
Proof.
  induction inputs as [| row inputs IH]; [ reflexivity | ].
  change (omap (output_rows web uc cols) (row :: inputs))
    with (match output_rows web uc cols row with
          | Some y => y :: omap (output_rows web uc cols) inputs
          | None => omap (output_rows web uc cols) inputs
          end).
  unfold row_origins. cbn [flat_map]. fold (row_origins web uc inputs).
  rewrite map_app, <- IH. unfold output_rows.
  destruct (extracted web (row_url uc row)) as [t |]; [ | reflexivity ].
  destruct (rows t) as [| r0 l] eqn:Hrows; [ reflexivity | ].
  cbn [length Nat.ltb Nat.leb map concat].
  now rewrite rows_tag_table, Hrows, map_map.
Qed.

(** An origin pairs an Input Row of the batch with a row of the table
    extracted from that row's address; its Output Row set is collected. *)
Lemma row_origins_elem (web : Web) (uc : string) (cols : list string)
    (inputs : list (gmap string (option string)))
    (row : gmap string (option string)) (r0 : gmap string Cell) :
  (row, r0) ∈ row_origins web uc inputs ->
  row ∈ inputs /\
  exists t, extracted web (row_url uc row) = Some t /\ r0 ∈ rows t /\
            tag_table uc cols row t ∈ omap (output_rows web uc cols) inputs.
Proof.
  unfold row_origins. rewrite list_elem_of_In, in_flat_map.
  intros (row' & Hrow' & Hin).
  destruct (extracted web (row_url uc row')) as [t |] eqn:Hex; [ | destruct Hin ].
  apply in_map_iff in Hin as (r & [= -> ->] & Hr).
  apply list_elem_of_In in Hrow'.
  split; [ exact Hrow' | ].
  exists t. split; [ exact Hex | split; [ now apply list_elem_of_In | ] ].
  apply list_elem_of_omap. exists row. split; [ exact Hrow' | ].
  unfold output_rows. rewrite Hex.
  destruct (rows t); [ destruct Hr | reflexivity ].
Qed.

Lemma Forall2_elem_r {A B : Type} (P Q : A -> B -> Prop) (l : list A) (k : list B) :
  Forall2 P l k ->
  (forall x y, y ∈ k -> P x y -> Q x y) ->
  Forall2 Q l k.
Proof.
  induction 1 as [| x y l k Hxy _ IH]; intros Himp; constructor.
  - apply Himp; [ apply elem_of_cons; now left | exact Hxy ].
  - apply IH. intros x' y' Hy'. apply Himp. apply elem_of_cons. now right.
Qed.

(** C6, as amended: the Output Rows of the Result Table are, one for one
    and in order, the rows of the tables extracted from the addresses of the
    Input Rows, taken in input order.  Every Output Row carries a copy of
    every non-address column of the one Input Row it was extracted from; its
    [Source_URL] is that row's address, unless the sheet has a non-address
    column of its own named [Source_URL], whose value then stands there; and
    every other column of the Result Table holds the cell of the extracted
    row. *)
Theorem C6_rows_trace_to_input (fs : FileSystem) (web : Web)
    (path sheet uc : string) (tr : list Event)
    (df inputs : Frame (option string)) (result : Frame Cell) :
  fs path sheet = Ok df ->
  clean_urls uc df = Ok inputs ->
  fst (process_kursziele_from_excel fs web path sheet uc tr) = Ok result ->
  Forall2
    (fun out '(row, r0) =>
       (forall c, c ∈ columns inputs -> c <> uc ->
          cell out c = Raw (raw_cell row c)) /\
       (~ ("Source_URL" ∈ columns inputs /\ "Source_URL" <> uc) ->
          cell out "Source_URL" = Raw (Some (row_url uc row))) /\
       (forall c, c ∈ columns result ->
          ~ (c ∈ columns inputs /\ c <> uc) -> c <> "Source_URL" ->
          cell out c = cell r0 c))
    (rows result) (row_origins web uc (rows inputs)) /\
  (forall row r0 tr',
     (row, r0) ∈ row_origins web uc (rows inputs) ->
     row ∈ rows inputs /\
     exists t,
       fst (get_kursziele_table web (row_url uc row) tr') = Ok (Some t) /\
       r0 ∈ rows t).
Proof.
  intros Hfs Hclean Hres.
  rewrite (process_spec _ _ _ _ _ _ df inputs Hfs Hclean) in Hres.
  cbn [fst] in Hres. injection Hres as <-.
  set (sets := omap (output_rows web uc (columns inputs)) (rows inputs)).
  destruct (result_table_cells sets) as [Hcells Hcols].
  split.
  - unfold sets in Hcells at 3. rewrite output_rows_origins in Hcells.
    apply Forall2_fmap_r in Hcells.
    apply (Forall2_elem_r _ _ _ _ Hcells).
    intros out [row r0] Hin Hout. unfold compose in Hout. cbn [fst snd] in Hout.
    apply (row_origins_elem _ _ (columns inputs)) in Hin
      as (_ & t & _ & _ & Hset).
    assert (Hsub : forall c, c ∈ columns (tag_table uc (columns inputs) row t) ->
                             c ∈ columns (result_table sets)).
    { intros c Hc. apply Hcols. now exists (tag_table uc (columns inputs) row t). }
    split; [ | split ].
    + intros c Hc Hne.
      rewrite Hout by (apply Hsub, columns_tag_table; right; right; now split).
      unfold cell. rewrite lookup_tag_row.
      now rewrite decide_True by (now split).
    + intros Hno.
      rewrite Hout by (apply Hsub, columns_tag_table; right; now left).
      unfold cell. rewrite lookup_tag_row.
      rewrite decide_False by exact Hno.
      now rewrite decide_True by reflexivity.
    + intros c Hc Hno Hne.
      rewrite Hout by exact Hc.
      unfold cell. rewrite lookup_tag_row.
      rewrite decide_False by exact Hno.
      now rewrite decide_False by exact Hne.
  - intros row r0 tr' Hin.
    apply (row_origins_elem _ _ (columns inputs)) in Hin
      as (Hrow & t & Hex & Hr0 & _).
    split; [ exact Hrow | ].
    exists t. rewrite get_kursziele_table_extracted. cbn [fst].
    split; [ now rewrite Hex | exact Hr0 ].
Qed.

Lemma C6_witness :
  exists out : gmap string Cell,
    rows {| columns := ["Institut"; "Kursziel"; "Datum"; "Source_URL"; "WKN"];
            rows := [ list_to_map
                        [("Institut", Raw (Some "Bank B"));
                         ("Kursziel", Norm (Some (decimal 12350 (-2))));
                         ("Datum", Raw (Some "2024-01-01"));
                         ("Source_URL", Raw (Some "u"));
                         ("WKN", Raw (Some "703000"))] ] |} = [out] /\
    row_origins (one_page "u" [table_kursziel]) "Url"
      [ list_to_map [("Url", Some "u"); ("WKN", Some "703000")];
        list_to_map [("Url", Some "v"); ("WKN", Some "716460")] ]
      = [ (list_to_map [("Url", Some "u"); ("WKN", Some "703000")],
           list_to_map [("Institut", Raw (Some "Bank B"));
                        ("Kursziel", Norm (Some (decimal 12350 (-2))));
                        ("Datum", Raw (Some "2024-01-01"))]) ] /\
    cell out "WKN" = Raw (Some "703000") /\
    cell out "Source_URL" = Raw (Some "u") /\
    cell out "Institut" = Raw (Some "Bank B") /\
    cell out "Kursziel" = Norm (Some (decimal 12350 (-2))).
Proof.
  assert (Ho : row_origins (one_page "u" [table_kursziel]) "Url"
                 [ list_to_map [("Url", Some "u"); ("WKN", Some "703000")];
                   list_to_map [("Url", Some "v"); ("WKN", Some "716460")] ]
               = [ (list_to_map [("Url", Some "u"); ("WKN", Some "703000")],
                    list_to_map [("Institut", Raw (Some "Bank B"));
                                 ("Kursziel", Norm (Some (decimal 12350 (-2))));
                                 ("Datum", Raw (Some "2024-01-01"))]) ]).
  { vm_compute. reflexivity. }
  destruct (C6_rows_trace_to_input (one_file "in.xlsx" sheet_wkn)
              (one_page "u" [table_kursziel]) "in.xlsx" "Kursziele_Input" "Url" []
              sheet_wkn
              {| columns := ["Url"; "WKN"];
                 rows := [ list_to_map [("Url", Some "u"); ("WKN", Some "703000")];
                           list_to_map [("Url", Some "v"); ("WKN", Some "716460")] ] |}
              {| columns := ["Institut"; "Kursziel"; "Datum"; "Source_URL"; "WKN"];
                 rows := [ list_to_map
                             [("Institut", Raw (Some "Bank B"));
                              ("Kursziel", Norm (Some (decimal 12350 (-2))));
                              ("Datum", Raw (Some "2024-01-01"));
                              ("Source_URL", Raw (Some "u"));
                              ("WKN", Raw (Some "703000"))] ] |}
              eq_refl eq_refl eq_refl)
    as [Hrows _].
  cbn [rows columns] in Hrows. rewrite Ho in Hrows.
  destruct (Forall2_cons_1 _ _ _ _ _ Hrows) as [(Hcopy & Hsrc & Hrest) _].
  eexists. split; [ reflexivity | split; [ exact Ho | ] ].
  assert (Hin : forall c : string, c ∈ ["Url"; "WKN"] -> c = "Url" \/ c = "WKN").
  { intros c H.
    apply elem_of_cons in H as [-> | H]; [ now left | ].
    apply elem_of_cons in H as [-> | H]; [ now right | ].
    now apply elem_of_nil in H. }
  split; [ | split; [ | split ] ].
  - etrans; [ apply Hcopy | reflexivity ]; [ | discriminate ].
    apply elem_of_cons. right. apply elem_of_cons. now left.
  - etrans; [ apply Hsrc | reflexivity ].
    intros [H _]. destruct (Hin _ H); discriminate.
  - etrans; [ apply Hrest | reflexivity ];
      [ apply elem_of_cons; now left | | discriminate ].
    intros [H _]. destruct (Hin _ H); discriminate.
  - etrans; [ apply Hrest | reflexivity ];
      [ apply elem_of_cons; right; apply elem_of_cons; now left | | discriminate ].
    intros [H _]. destruct (Hin _ H); discriminate.
Defined.

(** C6, as stated, fails for a sheet with a column [Source_URL] of its own:
    the Output Row carries that column's value, not the address. *)
Lemma C6_counterexample :
  exists result out,
    fst (process_kursziele_from_excel (one_file "in.xlsx" sheet_source_url)
           (one_page "u" [table_kursziel]) "in.xlsx" "Kursziele_Input" "Url" [])
      = Ok result /\
    rows result = [out] /\
    cell out "Source_URL" = Raw (Some "intern") /\
    cell out "Source_URL" <> Raw (Some "u").
Proof.
  eexists _, _.
  split; [ vm_compute; reflexivity | ].
  split; [ reflexivity | ].
  split; [ vm_compute; reflexivity | ].
  vm_compute. discriminate.
Qed.

Lemma output_rows_request_failed (web : Web) (uc : string) (cols : list string)
    (row : gmap string (option string)) (e : exn) :
  web (row_url uc row) = Raise e -> output_rows web uc cols row = None.
Proof. intros H. unfold output_rows, extracted. now rewrite H. Qed.

Lemma output_rows_selection_failed (web : Web) (uc : string) (cols : list string)
    (row : gmap string (option string)) (tables : list Table) (e : exn) :
  web (row_url uc row) = Ok tables ->
  select_table tables = Raise e ->
  output_rows web uc cols row = None.
Proof. intros H1 H2. unfold output_rows, extracted. now rewrite H1, H2. Qed.

Lemma omap_skip_None {A B : Type} (f : A -> option B) (pre post : list A) (a : A) :
  f a = None -> omap f (pre ++ a :: post)%list = omap f (pre ++ post)%list.
Proof.
  intros Ha. rewrite !omap_app. f_equal.
  change (omap f (a :: post))
    with (match f a with Some y => y :: omap f post | None => omap f post end).
  now rewrite Ha.
Qed.

(** C7, as amended: a workbook that is not found makes the batch return the
    empty Result Table, without a request and without raising; the batch
    never raises; a row whose request or whose table selection raises yields
    no Output Rows, and the Result Table is then the one of the other rows;
    normalising a column never raises and keeps the columns and every row of
    the table, in order: a cell whose text does not parse becomes absent,
    every cell of the column holds the outcome of the normaliser, and every
    cell of another column keeps its parsed value. *)
Theorem C7_failures_are_contained (fs : FileSystem) (web : Web)
    (path sheet uc : string) (tr : list Event) :
  (fs path sheet = Raise FileNotFoundError ->
   process_kursziele_from_excel fs web path sheet uc tr = (Ok empty_frame, tr)) /\
  (exists result tr',
     process_kursziele_from_excel fs web path sheet uc tr = (Ok result, tr')) /\
  (forall df inputs pre row post,
     fs path sheet = Ok df ->
     clean_urls uc df = Ok inputs ->
     rows inputs = (pre ++ row :: post)%list ->
     output_rows web uc (columns inputs) row = None ->
     fst (process_kursziele_from_excel fs web path sheet uc tr) =
       Ok (result_table (omap (output_rows web uc (columns inputs)) (pre ++ post)%list))) /\
  (forall cols row e,
     web (row_url uc row) = Raise e -> output_rows web uc cols row = None) /\
  (forall cols row tables e,
     web (row_url uc row) = Ok tables ->
     select_table tables = Raise e ->
     output_rows web uc cols row = None) /\
  (forall kc df, exists out,
     apply_parse_kursziel kc df = Ok out /\
     columns out = columns df /\
     length (rows out) = length (rows df) /\
     Forall2
       (fun o r =>
          (forall txt e,
             raw_cell r kc = Some txt ->
             PyFloat.float (norm txt) = Raise e ->
             o !! kc = Some (Norm None)) /\
          (exists v, parse_kursziel (raw_cell r kc) = Ok v /\ o !! kc = Some (Norm v)) /\
          (forall c, c <> kc -> o !! c = Raw <$> (r !! c)))
       (rows out) (rows df)).
Proof.
  split; [ | split; [ | split; [ | split; [ | split ] ] ] ].
  - intros Hfs. unfold process_kursziele_from_excel, IO_try.
    unfold mbind, IO_bind, lift. now rewrite Hfs.
  - apply process_Ok.
  - intros df inputs pre row post Hfs Hclean Hrows Hnone.
    rewrite (process_spec _ _ _ _ _ _ df inputs Hfs Hclean). cbn [fst].
    now rewrite Hrows, (omap_skip_None _ _ _ _ Hnone).
  - intros cols row e. apply output_rows_request_failed.
  - intros cols row tables e. apply output_rows_selection_failed.
  - intros kc df. rewrite apply_parse_kursziel_Ok. eexists.
    split; [ reflexivity | ]. split; [ reflexivity | ].
    cbn [rows]. split; [ apply length_map | ].
    induction (rows df) as [| r l IH]; constructor; [ | exact IH ].
    destruct (normalised_row_cells kc r) as [Hk Hother].
    split; [ | split; [ | exact Hother ] ].
    + intros txt e Hraw Hfl. rewrite Hk, Hraw.
      pose proof (parse_kursziel_spec (Some txt)) as Hspec.
      rewrite parse_kursziel_text, Hfl in Hspec.
      injection Hspec as Hspec. cbn [normalize_spec]. now rewrite <- Hspec.
    + exists (normalize_spec (raw_cell r kc)).
      split; [ apply parse_kursziel_spec | exact Hk ].
Qed.

(** C7, as stated, fails for a normalisation failure: the text "k.A." of a
    target-price cell does not parse, and its row is not skipped: it is in
    the Result Table, with its other cell and an absent target price. *)
Lemma C7_counterexample :
  PyFloat.float (norm "k.A.") = Raise ValueError /\
  parse_kursziel (Some "k.A.") = Ok None /\
  exists result out,
    fst (process_kursziele_from_excel (one_file "in.xlsx" sheet_one)
           (one_page "u" [table_text_cell]) "in.xlsx" "Kursziele_Input" "Url" [])
      = Ok result /\
    rows result = [out] /\
    cell out "Institut" = Raw (Some "Bank C") /\
    cell out "Kursziel" = Norm None.
Proof.
  split; [ vm_compute; reflexivity | ].
  split; [ vm_compute; reflexivity | ].
  eexists _, _.
  split; [ vm_compute; reflexivity | ].
  split; [ reflexivity | ].
  split; vm_compute; reflexivity.
Qed.

(** C9: an Input Row whose selected table parses to zero data rows is
    treated like a row whose request failed: no Output Row set is collected
    and no pause follows the request. *)
Theorem C9_empty_table_like_failed_fetch (web1 web2 : Web) (uc : string)
    (cols : list string) (row : gmap string (option string))
    (results : list (Frame Cell)) (tr : list Event)
    (tables : list Table) (t : Frame Cell) (e : exn) :
  web1 (row_url uc row) = Ok tables ->
  select_table tables = Ok (Some t) ->
  rows t = [] ->
  web2 (row_url uc row) = Raise e ->
  process_row web1 uc cols row results tr = process_row web2 uc cols row results tr /\
  process_row web1 uc cols row results tr =
    (Ok results, (tr ++ [Request (row_url uc row)])%list).
Proof.
  intros H1 Hsel Hrows H2.
  assert (E1 : output_rows web1 uc cols row = None).
  { unfold output_rows, extracted. now rewrite H1, Hsel, Hrows. }
  assert (E2 : output_rows web2 uc cols row = None).
  { now apply (output_rows_request_failed _ _ _ _ e). }
  rewrite !process_row_spec. unfold row_events. rewrite E1, E2.
  cbn [option_list]. now rewrite app_nil_r.
Qed.

Lemma C9_witness :
  process_row (one_page "u" [table_no_rows]) "Url" ["Url"]
    (list_to_map [("Url", Some "u")]) [] [] =
  process_row (one_page "v" []) "Url" ["Url"]
    (list_to_map [("Url", Some "u")]) [] [] /\
  process_row (one_page "u" [table_no_rows]) "Url" ["Url"]
    (list_to_map [("Url", Some "u")]) [] [] =
  (Ok [], [Request "u"]).
Proof.
  exact (C9_empty_table_like_failed_fetch
           (one_page "u" [table_no_rows]) (one_page "v" []) "Url" ["Url"]
           (list_to_map [("Url", Some "u")]) [] []
           [table_no_rows]
           {| columns := ["Institut"; "Kursziel"]; rows := [] |}
           RequestException eq_refl eq_refl eq_refl eq_refl).
Defined.

(** C10: in every Output Row of a tagged table, a column whose name is that
    of a non-address column of the Input Row, [Source_URL] included, holds
    the Input Row's value; the [Source_URL] column holds the address when no
    such column claims the name; every other column of the extracted table
    is as it was extracted. *)
Theorem C10_collision_overwrite (uc : string) (cols : list string)
    (row : gmap string (option string)) (t : Frame Cell) :
  Forall2
    (fun o r => forall c,
       (c ∈ cols -> c <> uc -> o !! c = Some (Raw (raw_cell row c))) /\
       (~ (c ∈ cols /\ c <> uc) -> c = "Source_URL" ->
          o !! c = Some (Raw (Some (row_url uc row)))) /\
       (~ (c ∈ cols /\ c <> uc) -> c <> "Source_URL" -> o !! c = r !! c))
    (rows (tag_table uc cols row t)) (rows t).
Proof.
  rewrite rows_tag_table.
  induction (rows t) as [| r l IH]; constructor; [ | exact IH ].
  intros c. rewrite lookup_tag_row. repeat split.
  - intros Hin Hne. now rewrite decide_True by (now split).
  - intros Hno ->. rewrite decide_False by exact Hno.
    now rewrite decide_True by reflexivity.
  - intros Hno Hne. rewrite decide_False by exact Hno.
    now rewrite decide_False by exact Hne.
Qed.

(** * Further properties *)

(** ** Replacement across a boundary *)

Lemma str_app_cons (x : ascii) (a b : string) :
  String x a +:+ b = String x (a +:+ b).
Proof. reflexivity. Qed.

Lemma str_app_assoc (a b c : string) : (a +:+ b) +:+ c = a +:+ (b +:+ c).
Proof.
  induction a as [| x a IH]; [ reflexivity | ].
  rewrite !str_app_cons. now f_equal.
Qed.

Lemma str_app_nil_r (a : string) : a +:+ "" = a.
Proof.
  induction a as [| x a IH]; [ reflexivity | ].
  rewrite str_app_cons. now f_equal.
Qed.

Lemma str_length_app (a b : string) :
  String.length (a +:+ b) = String.length a + String.length b.
Proof.
  induction a as [| x a IH]; [ reflexivity | ].
  rewrite str_app_cons. cbn [String.length Nat.add]. now f_equal.
Qed.

Lemma startswith_nil (s : string) : PyStr.startswith s "" = true.
Proof. now destruct s. Qed.

Lemma startswith_length (s p : string) :
  PyStr.startswith s p = true -> String.length p <= String.length s.
Proof.
  revert s. induction p as [| b p IH]; intros s H; cbn; [ lia | ].
  destruct s as [| a s]; [ discriminate | ]. cbn in H |- *.
  destruct (Ascii.eqb a b); [ | discriminate ].
  apply IH in H. lia.
Qed.

Lemma ascii_eqb_sym (a b : ascii) : Ascii.eqb a b = Ascii.eqb b a.
Proof.
  destruct (Ascii.eqb_spec a b) as [-> | Hne].
  - now rewrite Ascii.eqb_refl.
  - symmetry. apply Ascii.eqb_neq. congruence.
Qed.

(** A text that goes on with a character [h] which the pattern does not
    hold starts with the pattern exactly when its front does. *)
Lemma startswith_before (h : ascii) (b p x : string) :
  all_chars (fun c => negb (Ascii.eqb c h)) p = true ->
  PyStr.startswith (x +:+ String h b) p = PyStr.startswith x p.
Proof.
  revert x. induction p as [| o p IH]; intros x Hp;
    [ now rewrite !startswith_nil | ].
  cbn in Hp. apply andb_true_iff in Hp as [Ho Hp].
  destruct x as [| c x].
  - change ("" +:+ String h b) with (String h b). cbn [PyStr.startswith].
    rewrite ascii_eqb_sym. now destruct (Ascii.eqb o h).
  - rewrite str_app_cons. cbn [PyStr.startswith].
    destruct (Ascii.eqb c o); [ now apply IH | reflexivity ].
Qed.

Lemma startswith_boundary (h o : ascii) (b p x : string) (c : ascii) :
  all_chars (fun c => negb (Ascii.eqb c h)) p = true ->
  PyStr.startswith (String c x +:+ String h b) (String o p) =
  PyStr.startswith (String c x) (String o p).
Proof.
  intros Hp. rewrite str_app_cons. cbn [PyStr.startswith].
  destruct (Ascii.eqb c o); [ | reflexivity ].
  now apply startswith_before.
Qed.

(** No match of [str.replace] straddles a boundary whose right-hand side
    begins with a character that occurs in the pattern at its head only. *)
Lemma replace_scan_app (h o : ascii) (b p new : string) (a : string) (k : nat) :
  all_chars (fun c => negb (Ascii.eqb c h)) p = true ->
  k <= String.length a ->
  PyStr.replace_scan (String o p) new k (a +:+ String h b) =
  PyStr.replace_scan (String o p) new k a +:+
  PyStr.replace_scan (String o p) new 0 (String h b).
Proof.
  intros Hp. revert k.
  induction a as [| c a IH]; intros k Hk.
  - cbn in Hk. assert (k = 0) as -> by lia. reflexivity.
  - destruct k as [| k].
    + change (String c a +:+ String h b) with (String c (a +:+ String h b)).
      cbn [PyStr.replace_scan].
      change (String c (a +:+ String h b)) with (String c a +:+ String h b).
      rewrite (startswith_boundary h o b p a c Hp).
      destruct (PyStr.startswith (String c a) (String o p)) eqn:Hs.
      * apply startswith_length in Hs. cbn in Hs.
        rewrite IH by (cbn; lia). now rewrite str_app_assoc.
      * rewrite IH by lia. reflexivity.
    + cbn. apply IH. cbn in Hk. lia.
Qed.

Lemma replace_app (h o : ascii) (b p new a : string) :
  all_chars (fun c => negb (Ascii.eqb c h)) p = true ->
  PyStr.replace (String o p) new (a +:+ String h b) =
  PyStr.replace (String o p) new a +:+ PyStr.replace (String o p) new (String h b).
Proof.
  intros Hp. unfold PyStr.replace. apply replace_scan_app; [ exact Hp | lia ].
Qed.

(** A text that does not contain the pattern is left as it is. *)
Lemma replace_absent (o : ascii) (p new s : string) :
  PyStr.contains (String o p) s = false ->
  PyStr.replace (String o p) new s = s.
Proof.
  unfold PyStr.replace.
  induction s as [| c s IH]; intros H; [ reflexivity | ].
  cbn [PyStr.contains] in H. apply orb_false_iff in H as [Hs Hc].
  cbn [PyStr.replace_scan]. rewrite Hs. now rewrite IH.
Qed.

Lemma startswith_longer (s p q : string) :
  PyStr.startswith s (p +:+ q) = true -> PyStr.startswith s p = true.
Proof.
  revert s. induction p as [| b p IH]; intros s H; [ apply startswith_nil | ].
  rewrite str_app_cons in H.
  destruct s as [| a s]; [ discriminate | ]. cbn [PyStr.startswith] in H |- *.
  destruct (Ascii.eqb a b); [ now apply IH | discriminate ].
Qed.

Lemma contains_longer (s p q : string) :
  PyStr.contains p s = false -> PyStr.contains (p +:+ q) s = false.
Proof.
  induction s as [| c s IH]; cbn [PyStr.contains]; intros H.
  - apply orb_false_iff in H as [Hs _]. rewrite orb_false_r.
    destruct (PyStr.startswith "" (p +:+ q)) eqn:E; [ | reflexivity ].
    apply startswith_longer in E. congruence.
  - apply orb_false_iff in H as [Hs Hc]. rewrite (IH Hc), orb_false_r.
    destruct (PyStr.startswith (String c s) (p +:+ q)) eqn:E; [ | reflexivity ].
    apply startswith_longer in E. congruence.
Qed.

(** ** The output path of [main] *)

Lemma output_path_absent (excel_path : string) :
  PyStr.contains ".xls" excel_path = false ->
  output_path excel_path = excel_path.
Proof.
  intros H. unfold output_path.
  rewrite (replace_absent _ _ _ excel_path (contains_longer _ ".xls" "x" H)).
  now apply replace_absent.
Qed.

(** X1: a path in which ".xls" does not occur is its own output path. *)
Theorem X1_output_path_without_xls (excel_path : string) :
  PyStr.contains ".xls" excel_path = false ->
  output_path excel_path = excel_path.
Proof. exact (output_path_absent excel_path). Qed.

Lemma X1_witness : output_path "Kursziele.ods" = "Kursziele.ods".
Proof. apply X1_output_path_without_xls. reflexivity. Defined.

(** X2: appending ".xls" to a path appends "_kursziele.xlsx" to its output
    path; a stem without ".xls" in it is kept as it is. *)
Theorem X2_output_path_xls (stem : string) :
  output_path (stem +:+ ".xls") = output_path stem +:+ "_kursziele.xlsx" /\
  (PyStr.contains ".xls" stem = false ->
   output_path (stem +:+ ".xls") = stem +:+ "_kursziele.xlsx").
Proof.
  assert (E : output_path (stem +:+ ".xls") = output_path stem +:+ "_kursziele.xlsx").
  { unfold output_path.
    rewrite (replace_app "." "." "xls" "xlsx" _ stem) by reflexivity.
    change (PyStr.replace ".xlsx" "_kursziele.xlsx" ".xls") with ".xls".
    rewrite (replace_app "." "." "xls" "xls" _ _) by reflexivity.
    reflexivity. }
  split; [ exact E | ].
  intros H. now rewrite E, output_path_absent.
Qed.

(** X3: appending ".xlsx" to a path appends "_kursziele_kursziele.xlsxx" to
    its output path, because the second replacement matches inside what the
    first one wrote. *)
Theorem X3_output_path_xlsx (stem : string) :
  output_path (stem +:+ ".xlsx") =
    output_path stem +:+ "_kursziele_kursziele.xlsxx" /\
  (PyStr.contains ".xls" stem = false ->
   output_path (stem +:+ ".xlsx") = stem +:+ "_kursziele_kursziele.xlsxx").
Proof.
  assert (E : output_path (stem +:+ ".xlsx") =
              output_path stem +:+ "_kursziele_kursziele.xlsxx").
  { unfold output_path.
    rewrite (replace_app "." "." "xlsx" "xlsx" _ stem) by reflexivity.
    change (PyStr.replace ".xlsx" "_kursziele.xlsx" ".xlsx") with "_kursziele.xlsx".
    rewrite (replace_app "_" "." "kursziele.xlsx" "xls" _ _) by reflexivity.
    reflexivity. }
  split; [ exact E | ].
  intros H. now rewrite E, output_path_absent.
Qed.

(** ** The normaliser on well-formed numerals *)

Lemma all_chars_app (P : ascii -> bool) (a b : string) :
  all_chars P (a +:+ b) = all_chars P a && all_chars P b.
Proof.
  induction a as [| c a IH]; [ reflexivity | ].
  rewrite str_app_cons. cbn [all_chars]. now rewrite IH, andb_assoc.
Qed.

Lemma all_chars_impl (P Q : ascii -> bool) (s : string) :
  (forall c, P c = true -> Q c = true) ->
  all_chars P s = true -> all_chars Q s = true.
Proof.
  intros HPQ. induction s as [| c s IH]; [ reflexivity | ].
  cbn [all_chars]. rewrite !andb_true_iff. intros [Hc Hs]. auto.
Qed.

Lemma contains_first_absent (o : ascii) (p s : string) :
  all_chars (fun c => negb (Ascii.eqb c o)) s = true ->
  PyStr.contains (String o p) s = false.
Proof.
  induction s as [| c s IH]; [ reflexivity | ].
  cbn [all_chars PyStr.contains PyStr.startswith].
  rewrite andb_true_iff. intros [Hc Hs].
  apply negb_true_iff in Hc. rewrite Hc. now apply IH.
Qed.

Lemma replace_first_absent (o : ascii) (p new s : string) :
  all_chars (fun c => negb (Ascii.eqb c o)) s = true ->
  PyStr.replace (String o p) new s = s.
Proof. intros H. now apply replace_absent, contains_first_absent. Qed.

Lemma delete_char_absent (a : ascii) (s : string) :
  all_chars (fun c => negb (Ascii.eqb c a)) s = true ->
  PyStr.delete_char a s = s.
Proof.
  induction s as [| c s IH]; [ reflexivity | ].
  cbn [all_chars PyStr.delete_char]. rewrite andb_true_iff. intros [Hc Hs].
  apply negb_true_iff in Hc. rewrite Hc. now rewrite IH.
Qed.

Lemma delete_char_app (a : ascii) (x y : string) :
  PyStr.delete_char a (x +:+ y) = PyStr.delete_char a x +:+ PyStr.delete_char a y.
Proof.
  induction x as [| c x IH]; [ reflexivity | ].
  rewrite str_app_cons. cbn [PyStr.delete_char].
  destruct (Ascii.eqb c a); [ exact IH | ]. rewrite str_app_cons. now f_equal.
Qed.

Lemma subst_char_absent (a b : ascii) (s : string) :
  all_chars (fun c => negb (Ascii.eqb c a)) s = true ->
  PyStr.subst_char a b s = s.
Proof.
  induction s as [| c s IH]; [ reflexivity | ].
  cbn [all_chars PyStr.subst_char]. rewrite andb_true_iff. intros [Hc Hs].
  apply negb_true_iff in Hc. rewrite Hc. now rewrite IH.
Qed.

Lemma subst_char_app (a b : ascii) (x y : string) :
  PyStr.subst_char a b (x +:+ y) =
  PyStr.subst_char a b x +:+ PyStr.subst_char a b y.
Proof.
  induction x as [| c x IH]; [ reflexivity | ].
  rewrite str_app_cons. cbn [PyStr.subst_char]. rewrite str_app_cons. now f_equal.
Qed.

Lemma is_digit_cases (c : ascii) :
  PyFloat.is_digit c = true ->
  c = "0"%char \/ c = "1"%char \/ c = "2"%char \/ c = "3"%char \/ c = "4"%char \/
  c = "5"%char \/ c = "6"%char \/ c = "7"%char \/ c = "8"%char \/ c = "9"%char.
Proof.
  destruct c as [[] [] [] [] [] [] [] []]; cbv; intros H;
    try discriminate H; tauto.
Qed.

(** A digit is none of the characters the normaliser and [float] treat
    specially. *)
Lemma digit_is_plain (c : ascii) :
  PyFloat.is_digit c = true ->
  PyStr.isspace c = false /\
  Ascii.eqb c "226" = false /\ Ascii.eqb c "E" = false /\
  Ascii.eqb c "U" = false /\ Ascii.eqb c " " = false /\
  Ascii.eqb c "." = false /\ Ascii.eqb c "," = false /\
  Ascii.eqb c "_" = false.
Proof.
  intros H.
  destruct (is_digit_cases c H) as [-> | [-> | [-> | [-> | [-> | [-> | [-> | [-> | [-> | ->]]]]]]]]];
    repeat split; reflexivity.
Qed.

Lemma rstrip_plain (s : string) :
  all_chars (fun c => negb (PyStr.isspace c)) s = true -> PyStr.rstrip s = s.
Proof.
  induction s as [| c s IH]; [ reflexivity | ].
  cbn [all_chars PyStr.rstrip]. rewrite andb_true_iff. intros [Hc Hs].
  apply negb_true_iff in Hc. rewrite (IH Hs), Hc. now destruct s.
Qed.

Lemma strip_plain (s : string) :
  all_chars (fun c => negb (PyStr.isspace c)) s = true -> PyStr.strip s = s.
Proof.
  intros H. unfold PyStr.strip.
  assert (E : PyStr.lstrip s = s).
  { destruct s as [| c s]; [ reflexivity | ].
    cbn [all_chars] in H. apply andb_true_iff in H as [Hc _].
    apply negb_true_iff in Hc. cbn [PyStr.lstrip]. now rewrite Hc. }
  rewrite E. now apply rstrip_plain.
Qed.

Lemma drop_underscores_plain (prev : ascii) (s : string) :
  all_chars (fun c => negb (Ascii.eqb c "_")) s = true ->
  Ascii.eqb prev "_" = false ->
  PyFloat.drop_underscores prev s = Some s.
Proof.
  revert prev. induction s as [| c s IH]; intros prev Hs Hprev.
  - cbn. now rewrite Hprev.
  - cbn [all_chars] in Hs. apply andb_true_iff in Hs as [Hc Hs].
    apply negb_true_iff in Hc. cbn [PyFloat.drop_underscores].
    rewrite Hc, Hprev. cbn [andb]. now rewrite (IH c Hs Hc).
Qed.

Lemma read_digits_app (d rest : string) (acc : N) (n : nat) :
  all_chars PyFloat.is_digit d = true ->
  PyFloat.read_digits acc n (d +:+ rest) =
  PyFloat.read_digits (digits_value acc d) (String.length d + n) rest.
Proof.
  revert acc n. induction d as [| c d IH]; intros acc n H; [ reflexivity | ].
  cbn [all_chars] in H. apply andb_true_iff in H as [Hc Hd].
  rewrite str_app_cons. cbn [PyFloat.read_digits digits_value String.length].
  rewrite Hc, (IH _ _ Hd). f_equal. lia.
Qed.

Lemma read_digits_all (d : string) (acc : N) (n : nat) :
  all_chars PyFloat.is_digit d = true ->
  PyFloat.read_digits acc n d = (digits_value acc d, String.length d + n, "").
Proof.
  intros H. rewrite <- (str_app_nil_r d) at 1. now rewrite read_digits_app.
Qed.

Lemma digits_value_app (a b : string) (acc : N) :
  digits_value acc (a +:+ b) = digits_value (digits_value acc a) b.
Proof.
  revert acc. induction a as [| c a IH]; intros acc; [ reflexivity | ].
  rewrite str_app_cons. cbn [digits_value]. apply IH.
Qed.

Lemma read_sign_digit (c : ascii) (s : string) :
  PyFloat.is_digit c = true ->
  PyFloat.read_sign (String c s) = (false, String c s).
Proof.
  intros H.
  destruct (is_digit_cases c H) as [-> | [-> | [-> | [-> | [-> | [-> | [-> | [-> | [-> | ->]]]]]]]]];
    reflexivity.
Qed.

Lemma read_inf_or_nan_digit (neg : bool) (c : ascii) (s : string) :
  PyFloat.is_digit c = true ->
  PyFloat.read_inf_or_nan neg (String c s) = None.
Proof.
  intros H.
  destruct (is_digit_cases c H) as [-> | [-> | [-> | [-> | [-> | [-> | [-> | [-> | [-> | ->]]]]]]]]];
    reflexivity.
Qed.

Lemma read_number_fraction (neg : bool) (c : ascii) (d1 d2 : string) :
  all_chars PyFloat.is_digit (String c d1) = true ->
  all_chars PyFloat.is_digit d2 = true ->
  PyFloat.read_number neg (String c d1 +:+ String "." d2) =
  Some (PyFloat.of_decimal neg (digits_value 0 (String c d1 +:+ d2))
          (- Z.of_nat (String.length d2))).
Proof.
  intros H1 H2. unfold PyFloat.read_number.
  rewrite (read_digits_app _ _ _ _ H1).
  cbn [PyFloat.read_digits].
  change (PyFloat.is_digit ".") with false. cbv iota.
  rewrite (read_digits_all _ _ _ H2).
  cbn [String.length Nat.add PyFloat.read_exponent]. cbn [mbind option_bind].
  rewrite digits_value_app, Nat.add_0_r. reflexivity.
Qed.

Lemma read_number_integer (neg : bool) (c : ascii) (d : string) :
  all_chars PyFloat.is_digit (String c d) = true ->
  PyFloat.read_number neg (String c d) =
  Some (PyFloat.of_decimal neg (digits_value 0 (String c d)) 0).
Proof.
  intros H. unfold PyFloat.read_number.
  rewrite (read_digits_all _ _ _ H).
  cbn [String.length Nat.add PyFloat.read_exponent]. reflexivity.
Qed.

Lemma float_strip_plain (s : string) :
  all_chars (fun c => negb (PyStr.isspace c)) s = true -> PyFloat.strip s = s.
Proof.
  intros H.
  assert (Hf : all_chars (fun c => negb (PyFloat.isspace c)) s = true).
  { revert H. apply all_chars_impl. intros c Hc.
    apply negb_true_iff in Hc. apply negb_true_iff.
    destruct c as [[] [] [] [] [] [] [] []]; try reflexivity; discriminate Hc. }
  clear H. unfold PyFloat.strip.
  assert (E : PyFloat.lstrip s = s).
  { destruct s as [| c s]; [ reflexivity | ].
    cbn [all_chars] in Hf. apply andb_true_iff in Hf as [Hc _].
    apply negb_true_iff in Hc. cbn [PyFloat.lstrip]. now rewrite Hc. }
  rewrite E. clear E.
  induction s as [| c s IH]; [ reflexivity | ].
  cbn [all_chars] in Hf. apply andb_true_iff in Hf as [Hc Hs].
  apply negb_true_iff in Hc. cbn [PyFloat.rstrip].
  rewrite (IH Hs), Hc. now destruct s.
Qed.

Lemma float_plain (c : ascii) (s : string) :
  PyFloat.is_digit c = true ->
  all_chars (fun c => negb (PyStr.isspace c)) (String c s) = true ->
  all_chars (fun c => negb (Ascii.eqb c "_")) (String c s) = true ->
  PyFloat.float (String c s) =
  match PyFloat.read_number false (String c s) with
  | Some f => Ok f
  | None => Raise ValueError
  end.
Proof.
  intros Hc Hsp Hus. unfold PyFloat.float.
  rewrite (float_strip_plain _ Hsp), (drop_underscores_plain "000" _ Hus eq_refl).
  now rewrite (read_sign_digit _ _ Hc), (read_inf_or_nan_digit _ _ _ Hc).
Qed.

Lemma digits_are (Q : ascii -> bool) (d : string) :
  (forall c, PyFloat.is_digit c = true -> Q c = true) ->
  all_chars PyFloat.is_digit d = true -> all_chars Q d = true.
Proof. apply all_chars_impl. Qed.

Lemma digit_not (a : ascii) (c : ascii) :
  PyFloat.is_digit a = false ->
  PyFloat.is_digit c = true -> negb (Ascii.eqb c a) = true.
Proof.
  intros Ha Hc. apply negb_true_iff, Ascii.eqb_neq. intros ->. congruence.
Qed.

Lemma digit_not_space (c : ascii) :
  PyFloat.is_digit c = true -> negb (PyStr.isspace c) = true.
Proof. intros H. apply negb_true_iff. now apply digit_is_plain. Qed.

Lemma delete_dots_digits (x : string) :
  all_chars digit_or_dot x = true ->
  all_chars PyFloat.is_digit (PyStr.delete_char "." x) = true.
Proof.
  induction x as [| c x IH]; [ reflexivity | ].
  cbn [all_chars PyStr.delete_char]. rewrite andb_true_iff. intros [Hc Hx].
  destruct (Ascii.eqb c ".") eqn:E; [ now apply IH | ].
  cbn [all_chars]. unfold digit_or_dot in Hc. rewrite E, orb_false_r in Hc.
  now rewrite Hc, IH.
Qed.

(** The markers and the space leave a text of digits, dots and commas
    alone. *)
Lemma strip_markers_numeral (t : string) :
  all_chars (fun c => digit_or_dot c || Ascii.eqb c ",") t = true ->
  strip_markers_spec t = t.
Proof.
  intros H. unfold strip_markers_spec.
  assert (Hnot : forall a : ascii,
             digit_or_dot a || Ascii.eqb a "," = false ->
             all_chars (fun c => negb (Ascii.eqb c a)) t = true).
  { intros a Ha. revert H. apply all_chars_impl. intros c Hc.
    apply negb_true_iff, Ascii.eqb_neq. intros ->. congruence. }
  change "€" with (String "226" (String "130" (String "172" ""))).
  rewrite (replace_first_absent "226" _ _ t) by now apply Hnot.
  rewrite (replace_first_absent "E" _ _ t) by now apply Hnot.
  rewrite (replace_first_absent "U" _ _ t) by now apply Hnot.
  apply delete_char_absent. now apply Hnot.
Qed.

Lemma float_fraction (c : ascii) (d1 d2 : string) :
  all_chars PyFloat.is_digit (String c d1) = true ->
  all_chars PyFloat.is_digit d2 = true ->
  PyFloat.float (String c d1 +:+ String "." d2) =
  Ok (PyFloat.of_decimal false (digits_value 0 (String c d1 +:+ d2))
        (- Z.of_nat (String.length d2))).
Proof.
  intros H1 H2.
  pose proof H1 as Hc. cbn [all_chars] in Hc. apply andb_true_iff in Hc as [Hc _].
  assert (Hsp : all_chars (fun c => negb (PyStr.isspace c))
                  (String c (d1 +:+ String "." d2)) = true).
  { rewrite <- str_app_cons, all_chars_app.
    rewrite (digits_are _ _ digit_not_space H1). cbn [andb all_chars].
    change (negb (PyStr.isspace ".")) with true. cbn [andb].
    exact (digits_are _ _ digit_not_space H2). }
  assert (Hus : all_chars (fun c => negb (Ascii.eqb c "_"))
                  (String c (d1 +:+ String "." d2)) = true).
  { rewrite <- str_app_cons, all_chars_app.
    rewrite (digits_are _ _ (fun a => digit_not "_" a eq_refl) H1). cbn [andb all_chars].
    change (negb (Ascii.eqb "." "_")) with true. cbn [andb].
    exact (digits_are _ _ (fun a => digit_not "_" a eq_refl) H2). }
  rewrite str_app_cons, (float_plain c _ Hc Hsp Hus), <- str_app_cons.
  now rewrite (read_number_fraction false c d1 d2 H1 H2).
Qed.

Lemma float_integer (c : ascii) (d : string) :
  all_chars PyFloat.is_digit (String c d) = true ->
  PyFloat.float (String c d) =
  Ok (PyFloat.of_decimal false (digits_value 0 (String c d)) 0).
Proof.
  intros H.
  pose proof H as Hc. cbn [all_chars] in Hc. apply andb_true_iff in Hc as [Hc _].
  rewrite (float_plain c d Hc).
  - now rewrite (read_number_integer false c d H).
  - exact (digits_are _ _ digit_not_space H).
  - exact (digits_are _ _ (fun a => digit_not "_" a eq_refl) H).
Qed.

(** X5: a numeral written with thousands dots and a decimal comma --
    digits and dots, a comma, digits -- normalises to the float nearest to
    the decimal its digits denote; the dots have no influence. *)
Theorem X5_decimal_comma (x d2 : string) :
  all_chars digit_or_dot x = true ->
  PyStr.delete_char "." x <> "" ->
  all_chars PyFloat.is_digit d2 = true ->
  parse_kursziel (Some (x +:+ "," +:+ d2)) =
  Ok (Some (PyFloat.of_decimal false
              (digits_value 0 (PyStr.delete_char "." x +:+ d2))
              (- Z.of_nat (String.length d2)))).
Proof.
  intros Hx Hne Hd2.
  rewrite parse_kursziel_text, norm_numeral_spec. unfold numeral_spec.
  rewrite strip_markers_numeral.
  2:{ rewrite all_chars_app. apply andb_true_iff. split.
      - revert Hx. apply all_chars_impl. now intros c ->.
      - change ("," +:+ d2) with (String "," d2). cbn [all_chars].
        change (digit_or_dot "," || Ascii.eqb "," ",") with true. cbn [andb].
        revert Hd2. apply all_chars_impl. intros c Hc.
        unfold digit_or_dot. now rewrite Hc. }
  rewrite delete_char_app. change ("," +:+ d2) with (String "," d2).
  cbn [PyStr.delete_char]. change (Ascii.eqb "," ".") with false. cbv iota.
  rewrite (delete_char_absent "." d2) by exact (digits_are _ _ (fun a => digit_not "." a eq_refl) Hd2).
  pose proof (delete_dots_digits x Hx) as HD.
  destruct (PyStr.delete_char "." x) as [| c D] eqn:ED; [ congruence | ].
  rewrite subst_char_app.
  rewrite (subst_char_absent "," "." (String c D))
    by exact (digits_are _ _ (fun a => digit_not "," a eq_refl) HD).
  cbn [PyStr.subst_char]. change (Ascii.eqb "," ",") with true. cbv iota.
  rewrite (subst_char_absent "," "." d2)
    by exact (digits_are _ _ (fun a => digit_not "," a eq_refl) Hd2).
  now rewrite (float_fraction c D d2 HD Hd2).
Qed.

Lemma X5_witness :
  parse_kursziel (Some "1.234.567,89") = Ok (Some (decimal 123456789 (-2))).
Proof.
  exact (X5_decimal_comma "1.234.567" "89" eq_refl ltac:(discriminate) eq_refl).
Defined.

(** X6: a numeral of digits and dots without a comma normalises to the
    integer its digits denote: a dot is never read as a decimal point. *)
Theorem X6_dot_is_never_decimal (x : string) :
  all_chars digit_or_dot x = true ->
  PyStr.delete_char "." x <> "" ->
  parse_kursziel (Some x) =
  Ok (Some (PyFloat.of_decimal false (digits_value 0 (PyStr.delete_char "." x)) 0)).
Proof.
  intros Hx Hne.
  rewrite parse_kursziel_text, norm_numeral_spec. unfold numeral_spec.
  rewrite strip_markers_numeral.
  2:{ revert Hx. apply all_chars_impl. now intros c ->. }
  pose proof (delete_dots_digits x Hx) as HD.
  destruct (PyStr.delete_char "." x) as [| c D] eqn:ED; [ congruence | ].
  rewrite (subst_char_absent "," "." (String c D))
    by exact (digits_are _ _ (fun a => digit_not "," a eq_refl) HD).
  now rewrite (float_integer c D HD).
Qed.

Lemma X6_witness :
  parse_kursziel (Some "98.7") = Ok (Some (decimal 987 0)).
Proof.
  exact (X6_dot_is_never_decimal "98.7" eq_refl ltac:(discriminate)).
Defined.

(** ** A space separates what the normaliser removes *)

Lemma replace_head_other (o : ascii) (p new : string) (c : ascii) (s : string) :
  Ascii.eqb c o = false ->
  PyStr.replace (String o p) new (String c s) =
  String c (PyStr.replace (String o p) new s).
Proof.
  intros H. unfold PyStr.replace. cbn [PyStr.replace_scan PyStr.startswith].
  now rewrite H.
Qed.

Lemma replace_across_space (o : ascii) (p new a b : string) :
  Ascii.eqb " " o = false ->
  all_chars (fun c => negb (Ascii.eqb c " ")) p = true ->
  PyStr.replace (String o p) new (a +:+ String " " b) =
  PyStr.replace (String o p) new a +:+ String " " (PyStr.replace (String o p) new b).
Proof.
  intros Ho Hp. rewrite (replace_app " " o b p new a Hp).
  now rewrite (replace_head_other o p new " " b Ho).
Qed.

Lemma stripped_across_space (a b : string) :
  stripped (a +:+ String " " b) = stripped a +:+ stripped b.
Proof.
  unfold stripped.
  change "€" with (String "226" (String "130" (String "172" ""))).
  rewrite (replace_across_space "226" _ _ a b) by reflexivity.
  rewrite (replace_across_space "E" "UR" _ _ _) by reflexivity.
  rewrite (replace_across_space "U" "SD" _ _ _) by reflexivity.
  rewrite !replace_char_delete, delete_char_app.
  cbn [PyStr.delete_char]. now rewrite Ascii.eqb_refl.
Qed.

Lemma norm_across_space (a b : string) :
  norm (a +:+ String " " b) = norm a +:+ norm b.
Proof.
  unfold norm. rewrite stripped_across_space.
  now rewrite !replace_char_subst, !replace_char_delete, delete_char_app, subst_char_app.
Qed.

Lemma parse_kursziel_norm (s t : string) :
  norm s = norm t -> parse_kursziel (Some s) = parse_kursziel (Some t).
Proof. intros H. now rewrite !parse_kursziel_text, H. Qed.

(** X7: a space is a boundary for the normaliser: the text handed to
    [float] for "a b" is the text for "a" followed by the text for "b".  So
    a currency marker set off by a space, after or before the number, never
    changes the result. *)
Theorem X7_space_separates (a b : string) :
  norm (a +:+ " " +:+ b) = norm a +:+ norm b /\
  parse_kursziel (Some (a +:+ " €")) = parse_kursziel (Some a) /\
  parse_kursziel (Some (a +:+ " EUR")) = parse_kursziel (Some a) /\
  parse_kursziel (Some (a +:+ " USD")) = parse_kursziel (Some a) /\
  parse_kursziel (Some ("€ " +:+ b)) = parse_kursziel (Some b) /\
  parse_kursziel (Some ("EUR " +:+ b)) = parse_kursziel (Some b) /\
  parse_kursziel (Some ("USD " +:+ b)) = parse_kursziel (Some b).
Proof.
  split; [ apply norm_across_space | ].
  repeat split; apply parse_kursziel_norm.
  - change (a +:+ " €") with (a +:+ String " " "€").
    rewrite norm_across_space. apply str_app_nil_r.
  - change (a +:+ " EUR") with (a +:+ String " " "EUR").
    rewrite norm_across_space. apply str_app_nil_r.
  - change (a +:+ " USD") with (a +:+ String " " "USD").
    rewrite norm_across_space. apply str_app_nil_r.
  - change ("€ " +:+ b) with ("€" +:+ String " " b).
    now rewrite norm_across_space.
  - change ("EUR " +:+ b) with ("EUR" +:+ String " " b).
    now rewrite norm_across_space.
  - change ("USD " +:+ b) with ("USD" +:+ String " " b).
    now rewrite norm_across_space.
Qed.

(** ** More on the table selector *)

Lemma select_table_raise (tables : list Table) (e : exn) :
  search_tables tables = Raise e -> select_table tables = Raise e.
Proof.
  destruct tables as [| t rest]; [ discriminate | ].
  unfold select_table. now intros ->.
Qed.

Lemma search_tables_head_raise (table : Table) (rest : list Table) (e : exn) :
  header_has_keyword table = true ->
  load_frame table = Raise e ->
  search_tables (table :: rest) = Raise e.
Proof.
  unfold header_has_keyword. cbn [search_tables].
  destruct (headers_text table) as [hs |]; [ | discriminate ].
  now intros -> ->.
Qed.

(** X8: when the first table that could win -- its header list has the
    keyword -- cannot be parsed into a frame with text labels, the selector
    returns nothing: no later table is looked at and the first-table
    fallback is not tried. *)
Theorem X8_matching_table_parse_error (web : Web) (page_url : string)
    (tr : list Event) (pre : list Table) (table : Table) (post : list Table)
    (e : exn) :
  web page_url = Ok (pre ++ table :: post)%list ->
  Forall passed_over pre ->
  header_has_keyword table = true ->
  load_frame table = Raise e ->
  get_kursziele_table web page_url tr =
    (Ok None, (tr ++ [Request page_url])%list).
Proof.
  intros Hweb Hpre Hh Hl.
  rewrite get_kursziele_table_extracted. unfold extracted. rewrite Hweb.
  rewrite (select_table_raise _ e); [ reflexivity | ].
  rewrite (search_tables_passed_over _ _ Hpre).
  now apply search_tables_head_raise.
Qed.

Lemma X8_witness :
  get_kursziele_table
    (one_page "u" [table_other; table_td_header; table_kursziel]) "u" [] =
  (Ok None, [Request "u"]).
Proof.
  apply (X8_matching_table_parse_error _ "u" [] [table_other] table_td_header
           [table_kursziel] AttributeError).
  - reflexivity.
  - constructor; [ now left | constructor ].
  - reflexivity.
  - reflexivity.
Defined.

(** X9: whatever the request and the parsing do -- any exception of
    [requests], any exception while the tables are read -- the function
    returns normally, after exactly one request, to the address it was
    given. *)
Theorem X9_one_request_no_exception (web : Web) (page_url : string)
    (tr : list Event) :
  exists found,
    get_kursziele_table web page_url tr =
      (Ok found, (tr ++ [Request page_url])%list) /\
    (forall e, web page_url = Raise e -> found = None) /\
    (forall tables e, web page_url = Ok tables ->
                      select_table tables = Raise e -> found = None).
Proof.
  exists (extracted web page_url).
  split; [ apply get_kursziele_table_extracted | ].
  unfold extracted. split.
  - now intros e ->.
  - now intros tables e -> ->.
Qed.

Lemma search_tables_Some (tables : list Table) (out : Frame Cell) :
  search_tables tables = Ok (Some out) ->
  exists table df kc,
    table ∈ tables /\
    header_has_keyword table = true /\
    load_frame table = Ok df /\
    find_kursziel_col (columns df) = Some kc /\
    out = {| columns := columns df; rows := map (normalised_row kc) (rows df) |}.
Proof.
  induction tables as [| t rest IH]; [ discriminate | ].
  assert (Hrest : search_tables rest = Ok (Some out) ->
                  exists table df kc,
                    table ∈ t :: rest /\
                    header_has_keyword table = true /\
                    load_frame table = Ok df /\
                    find_kursziel_col (columns df) = Some kc /\
                    out = {| columns := columns df;
                             rows := map (normalised_row kc) (rows df) |}).
  { intros H. destruct (IH H) as (table & df & kc & Hin & Hrem).
    exists table, df, kc. split; [ now apply elem_of_cons; right | exact Hrem ]. }
  destruct (header_has_keyword t) eqn:Hh.
  - destruct (load_frame t) as [df | e] eqn:Hl.
    + rewrite (search_tables_head _ _ df Hh Hl).
      destruct (find_kursziel_col (columns df)) as [kc |] eqn:Hf; [ | exact Hrest ].
      intros [= <-]. exists t, df, kc.
      split; [ apply elem_of_cons; now left | auto ].
    + now rewrite (search_tables_head_raise _ _ e Hh Hl).
  - rewrite (search_tables_skip _ _ Hh). exact Hrest.
Qed.

Lemma select_table_Some (tables : list Table) (out : Frame Cell) :
  select_table tables = Ok (Some out) ->
  exists table df,
    table ∈ tables /\
    load_frame table = Ok df /\
    (out = as_parsed df \/
     exists kc,
       find_kursziel_col (columns df) = Some kc /\
       out = {| columns := columns df; rows := map (normalised_row kc) (rows df) |}).
Proof.
  destruct tables as [| t0 rest]; [ discriminate | ].
  unfold select_table.
  destruct (search_tables (t0 :: rest)) as [[found |] | e] eqn:Hs; cbn.
  - intros [= <-]. apply search_tables_Some in Hs
      as (table & df & kc & Hin & _ & Hl & Hf & ->).
    exists table, df. split; [ exact Hin | split; [ exact Hl | right ] ].
    now exists kc.
  - destruct (load_frame t0) as [df | e] eqn:Hl; cbn; [ | discriminate ].
    intros [= <-]. exists t0, df.
    split; [ apply elem_of_cons; now left | split; [ exact Hl | now left ] ].
  - discriminate.
Qed.

(** X10: whatever frame the selector returns stems from one table of the
    page: it has the columns and the number of rows of that table's parsed
    frame, and each of its cells is the parsed cell, or, in a column whose
    name contains the keyword, the normalisation of the parsed cell. *)
Theorem X10_result_stems_from_a_table (web : Web) (page_url : string)
    (tr : list Event) (tables : list Table) (out : Frame Cell) :
  web page_url = Ok tables ->
  fst (get_kursziele_table web page_url tr) = Ok (Some out) ->
  exists table df,
    table ∈ tables /\
    load_frame table = Ok df /\
    columns out = columns df /\
    Forall2
      (fun o r => forall c,
         o !! c = Raw <$> (r !! c) \/
         (PyStr.contains keyword (PyStr.lower c) = true /\
          exists v, parse_kursziel (raw_cell r c) = Ok v /\ o !! c = Some (Norm v)))
      (rows out) (rows df).
Proof.
  intros Hweb Hout.
  rewrite get_kursziele_table_extracted in Hout. cbn [fst] in Hout.
  unfold extracted in Hout. rewrite Hweb in Hout.
  destruct (select_table tables) as [found | e] eqn:Hsel; [ | discriminate ].
  injection Hout as ->.
  apply select_table_Some in Hsel as (table & df & Hin & Hl & Hcase).
  exists table, df. split; [ exact Hin | split; [ exact Hl | ] ].
  destruct Hcase as [-> | (kc & Hf & ->)].
  - split; [ reflexivity | ].
    destruct (as_parsed_cells df) as [_ Hcells].
    eapply Forall2_impl; [ exact Hcells | ]. intros o r H c. left. apply H.
  - split; [ reflexivity | ]. cbn [rows].
    apply find_kursziel_col_first in Hf as (_ & _ & _ & Hk & _).
    induction (rows df) as [| r l IHl]; constructor; [ | exact IHl ].
    intros c. destruct (normalised_row_cells kc r) as [Hkc Hother].
    destruct (decide (c = kc)) as [-> | Hne].
    + right. split; [ exact Hk | ].
      exists (normalize_spec (raw_cell r kc)).
      split; [ apply parse_kursziel_spec | exact Hkc ].
    + left. now apply Hother.
Qed.

Lemma X10_witness :
  exists table df,
    table ∈ [table_other; table_kursziel] /\
    load_frame table = Ok df /\
    columns df = ["Institut"; "Kursziel"; "Datum"].
Proof.
  destruct (X10_result_stems_from_a_table
              (one_page "u" [table_other; table_kursziel]) "u" []
              [table_other; table_kursziel]
              {| columns := ["Institut"; "Kursziel"; "Datum"];
                 rows := [ list_to_map
                             [("Institut", Raw (Some "Bank B"));
                              ("Kursziel", Norm (Some (decimal 12350 (-2))));
                              ("Datum", Raw (Some "2024-01-01"))] ] |}
              eq_refl eq_refl)
    as (table & df & Hin & Hl & Hcols & _).
  exists table, df. split; [ exact Hin | split; [ exact Hl | now rewrite <- Hcols ] ].
Defined.

(** X11: when every table whose header list has the keyword parses to a
    frame without a keyword column, the selector falls back to the first
    table of the page -- which may be one of those tables -- and returns it
    unnormalised, or nothing when it cannot be parsed. *)
Theorem X11_fallback_after_passed_over (web : Web) (page_url : string)
    (tr : list Event) (table0 : Table) (rest : list Table) :
  web page_url = Ok (table0 :: rest) ->
  Forall passed_over (table0 :: rest) ->
  fst (get_kursziele_table web page_url tr) =
    Ok match load_frame table0 with
       | Ok df => Some (as_parsed df)
       | Raise _ => None
       end.
Proof.
  intros Hweb Hall.
  rewrite get_kursziele_table_extracted. cbn [fst]. unfold extracted.
  rewrite Hweb. unfold select_table.
  pose proof (search_tables_passed_over (table0 :: rest) [] Hall) as Hs.
  rewrite app_nil_r in Hs. rewrite Hs. cbn.
  now destruct (load_frame table0).
Qed.

Lemma X11_witness :
  fst (get_kursziele_table (one_page "u" [table_split_header]) "u" []) =
  Ok (Some {| columns := ["Analyst"; "Kurs ziel"];
              rows := [list_to_map [("Analyst", Raw (Some "Bank A"));
                                    ("Kurs ziel", Raw (Some "100,00 €"))]] |}).
Proof.
  apply (X11_fallback_after_passed_over (one_page "u" [table_split_header]) "u" []
           table_split_header []).
  - reflexivity.
  - constructor; [ | constructor ]. right.
    exists {| columns := ["Analyst"; "Kurs ziel"];
              rows := [list_to_map [("Analyst", Some "Bank A");
                                    ("Kurs ziel", Some "100,00 €")]] |}.
    split; reflexivity.
Defined.

(** ** More on the batch runner *)

Lemma clean_urls_rows (uc : string) (df : Frame (option string)) :
  uc ∈ columns df ->
  clean_urls uc df =
  Ok {| columns := columns df; rows := omap (clean_row uc) (rows df) |}.
Proof.
  intros Hin. unfold clean_urls. rewrite decide_True by exact Hin.
  f_equal. f_equal.
  set (notna := fun r : gmap string (option string) =>
                  bool_decide (is_Some (raw_cell r uc))).
  set (trim := fun r : gmap string (option string) =>
                 <[uc := Some (PyStr.strip (astype_str (raw_cell r uc)))]> r).
  set (nonempty := fun r : gmap string (option string) =>
                     negb (String.eqb (astype_str (raw_cell r uc)) "")).
  induction (rows df) as [| r0 l IH]; [ reflexivity | ].
  change (omap (clean_row uc) (r0 :: l))
    with (match clean_row uc r0 with
          | Some y => y :: omap (clean_row uc) l
          | None => omap (clean_row uc) l
          end).
  cbn [List.filter]. unfold clean_row.
  destruct (raw_cell r0 uc) as [s |] eqn:E.
  - assert (H1 : notna r0 = true).
    { unfold notna. rewrite E. now apply bool_decide_eq_true_2. }
    rewrite H1. cbn [map List.filter].
    assert (H2 : trim r0 = <[uc := Some (PyStr.strip s)]> r0).
    { unfold trim. now rewrite E. }
    assert (H3 : nonempty (trim r0) = negb (String.eqb (PyStr.strip s) "")).
    { rewrite H2. unfold nonempty, raw_cell. now rewrite lookup_insert_eq. }
    rewrite H3, H2.
    destruct (String.eqb (PyStr.strip s) ""); cbn [negb]; [ exact IH | ].
    f_equal. exact IH.
  - assert (H1 : notna r0 = false).
    { unfold notna. rewrite E. apply bool_decide_eq_false_2.
      intros [x Hx]. discriminate. }
    rewrite H1. exact IH.
Qed.

Lemma clean_urls_Ok (uc : string) (df inputs : Frame (option string)) :
  clean_urls uc df = Ok inputs ->
  uc ∈ columns df /\
  inputs = {| columns := columns df; rows := omap (clean_row uc) (rows df) |}.
Proof.
  intros H. destruct (decide (uc ∈ columns df)) as [Hin | Hout].
  - split; [ exact Hin | ]. rewrite (clean_urls_rows _ _ Hin) in H. congruence.
  - unfold clean_urls in H. rewrite decide_False in H by exact Hout. discriminate.
Qed.

Lemma clean_row_Some (uc : string) (r0 r : gmap string (option string)) :
  clean_row uc r0 = Some r ->
  exists s,
    raw_cell r0 uc = Some s /\
    PyStr.strip s <> "" /\
    r = <[uc := Some (PyStr.strip s)]> r0 /\
    row_url uc r = PyStr.strip s.
Proof.
  unfold clean_row. destruct (raw_cell r0 uc) as [s |] eqn:E; [ | discriminate ].
  destruct (String.eqb_spec (PyStr.strip s) "") as [Heq | Hne]; [ discriminate | ].
  intros [= <-]. exists s. repeat split; [ exact Hne | ].
  unfold row_url, raw_cell. now rewrite lookup_insert_eq.
Qed.

(** X12: cleaning keeps the columns and the order of the rows; every Input
    Row it yields is a row of the workbook whose address, trimmed, is not
    empty, with that trimmed address in the address column and every other
    cell untouched; and no workbook row with such an address is dropped. *)
Theorem X12_clean_urls (uc : string) (df inputs : Frame (option string)) :
  clean_urls uc df = Ok inputs ->
  columns inputs = columns df /\
  (forall r, r ∈ rows inputs ->
     exists r0 s,
       r0 ∈ rows df /\
       raw_cell r0 uc = Some s /\
       row_url uc r = PyStr.strip s /\
       row_url uc r <> "" /\
       forall c, c <> uc -> r !! c = r0 !! c) /\
  (forall r0 s,
     r0 ∈ rows df -> raw_cell r0 uc = Some s -> PyStr.strip s <> "" ->
     <[uc := Some (PyStr.strip s)]> r0 ∈ rows inputs) /\
  sublist (map (row_url uc) (rows inputs))
          (map (fun r0 => PyStr.strip (astype_str (raw_cell r0 uc))) (rows df)).
Proof.
  intros H. apply clean_urls_Ok in H as [_ ->]. cbn [columns rows].
  split; [ reflexivity | split; [ | split ] ].
  - intros r Hr. apply list_elem_of_omap in Hr as (r0 & Hr0 & Hc).
    apply clean_row_Some in Hc as (s & Hs & Hne & -> & Hurl).
    exists r0, s. split; [ exact Hr0 | split; [ exact Hs | ] ].
    split; [ exact Hurl | split; [ now rewrite Hurl | ] ].
    intros c Hc. now rewrite lookup_insert_ne by congruence.
  - intros r0 s Hr0 Hs Hne. apply list_elem_of_omap. exists r0.
    split; [ exact Hr0 | ]. unfold clean_row. rewrite Hs.
    now destruct (String.eqb_spec (PyStr.strip s) "").
  - induction (rows df) as [| r0 l IH]; [ constructor | ].
    change (omap (clean_row uc) (r0 :: l))
      with (match clean_row uc r0 with
            | Some y => y :: omap (clean_row uc) l
            | None => omap (clean_row uc) l
            end).
    cbn [map]. destruct (clean_row uc r0) as [r |] eqn:Hc.
    + apply clean_row_Some in Hc as (s & Hs & _ & _ & Hurl).
      cbn [map]. rewrite Hurl, Hs. cbn [astype_str default].
      now constructor.
    + now constructor.
Qed.

Lemma X12_witness :
  columns {| columns := ["Url"; "WKN"];
             rows := [ (list_to_map [("Url", Some "u"); ("WKN", Some "703000")]
                        : gmap string (option string));
                       list_to_map [("Url", Some "v"); ("WKN", Some "716460")] ] |}
  = columns sheet_wkn.
Proof.
  exact (proj1 (X12_clean_urls "Url" sheet_wkn
                  {| columns := ["Url"; "WKN"];
                     rows := [ list_to_map [("Url", Some "u"); ("WKN", Some "703000")];
                               list_to_map [("Url", Some "v"); ("WKN", Some "716460")] ] |}
                  eq_refl)).
Defined.

Lemma requests_app (a b : list Event) :
  requests (a ++ b)%list = (requests a ++ requests b)%list.
Proof. apply omap_app. Qed.

Lemma seconds_slept_app (a b : list Event) :
  seconds_slept (a ++ b)%list = seconds_slept a + seconds_slept b.
Proof.
  induction a as [| ev a IH]; [ reflexivity | ].
  cbn [app seconds_slept]. destruct ev; lia.
Qed.

Lemma batch_events (web : Web) (uc : string) (cols : list string)
    (todo : list (gmap string (option string))) :
  requests (concat (map (row_events web uc cols) todo)) = map (row_url uc) todo /\
  seconds_slept (concat (map (row_events web uc cols) todo)) =
    length (omap (output_rows web uc cols) todo).
Proof.
  induction todo as [| row rest [IHr IHs]]; [ split; reflexivity | ].
  cbn [map concat]. rewrite requests_app, seconds_slept_app, IHr, IHs.
  change (omap (output_rows web uc cols) (row :: rest))
    with (match output_rows web uc cols row with
          | Some y => y :: omap (output_rows web uc cols) rest
          | None => omap (output_rows web uc cols) rest
          end).
  unfold row_events.
  destruct (output_rows web uc cols row); split; reflexivity.
Qed.

(** X13: the batch requests exactly the addresses of the Input Rows, once
    each and in their order, none of them empty, and it sleeps one second
    for every row that yields Output Rows and not at all for the others. *)
Theorem X13_requests_and_pauses (fs : FileSystem) (web : Web)
    (path sheet uc : string) (df inputs : Frame (option string)) :
  fs path sheet = Ok df ->
  clean_urls uc df = Ok inputs ->
  let tr := snd (process_kursziele_from_excel fs web path sheet uc []) in
  requests tr = map (row_url uc) (rows inputs) /\
  Forall (fun u => u <> "") (requests tr) /\
  seconds_slept tr =
    length (omap (output_rows web uc (columns inputs)) (rows inputs)).
Proof.
  intros Hfs Hclean tr. unfold tr.
  rewrite (process_spec _ _ _ _ _ _ df inputs Hfs Hclean). cbn [snd app].
  destruct (batch_events web uc (columns inputs) (rows inputs)) as [Hr Hs].
  rewrite Hr, Hs. split; [ reflexivity | split; [ | reflexivity ] ].
  apply clean_urls_Ok in Hclean as [_ ->]. cbn [rows].
  apply Forall_forall. intros u Hu.
  apply list_elem_of_In, in_map_iff in Hu as (r & <- & Hr').
  apply list_elem_of_In, list_elem_of_omap in Hr' as (r0 & _ & Hc).
  apply clean_row_Some in Hc as (s & _ & Hne & _ & Hurl). now rewrite Hurl.
Qed.

Lemma X13_witness :
  requests (snd (process_kursziele_from_excel (one_file "in.xlsx" sheet_wkn)
                   (one_page "u" [table_kursziel]) "in.xlsx" "Kursziele_Input" "Url" []))
    = ["u"; "v"] /\
  seconds_slept (snd (process_kursziele_from_excel (one_file "in.xlsx" sheet_wkn)
                   (one_page "u" [table_kursziel]) "in.xlsx" "Kursziele_Input" "Url" []))
    = 1.
Proof.
  destruct (X13_requests_and_pauses (one_file "in.xlsx" sheet_wkn)
              (one_page "u" [table_kursziel]) "in.xlsx" "Kursziele_Input" "Url"
              sheet_wkn
              {| columns := ["Url"; "WKN"];
                 rows := [ list_to_map [("Url", Some "u"); ("WKN", Some "703000")];
                           list_to_map [("Url", Some "v"); ("WKN", Some "716460")] ] |}
              eq_refl eq_refl) as (Hr & _ & Hs).
  split; [ exact Hr | exact Hs ].
Defined.

Lemma process_unreadable (fs : FileSystem) (web : Web)
    (path sheet uc : string) (tr : list Event) :
  (exists e, fs path sheet = Raise e) \/
  (exists df, fs path sheet = Ok df /\ uc ∉ columns df) ->
  process_kursziele_from_excel fs web path sheet uc tr = (Ok empty_frame, tr).
Proof.
  unfold process_kursziele_from_excel, IO_try. unfold mbind, IO_bind, lift.
  intros [[e He] | (df & Hdf & Hno)].
  - rewrite He. now destruct e.
  - rewrite Hdf. unfold clean_urls. now rewrite decide_False by exact Hno.
Qed.

(** X14: when the workbook cannot be read, whatever the exception, or has
    no address column, the batch returns the empty frame and makes no
    request. *)
Theorem X14_unreadable_workbook (fs : FileSystem) (web : Web)
    (path sheet uc : string) (tr : list Event) :
  (exists e, fs path sheet = Raise e) \/
  (exists df, fs path sheet = Ok df /\ uc ∉ columns df) ->
  process_kursziele_from_excel fs web path sheet uc tr = (Ok empty_frame, tr).
Proof. apply process_unreadable. Qed.

Lemma X14_witness :
  process_kursziele_from_excel (one_file "in.xlsx" sheet_wkn)
    (one_page "u" [table_kursziel]) "in.xlsx" "Kursziele_Input" "Adresse" [] =
  (Ok empty_frame, []).
Proof.
  apply X14_unreadable_workbook. right. exists sheet_wkn.
  split; [ reflexivity | ].
  cbn [columns sheet_wkn]. intros H.
  apply elem_of_cons in H as [H | H]; [ discriminate H | ].
  apply elem_of_cons in H as [H | H]; [ discriminate H | ].
  now apply elem_of_nil in H.
Defined.

Lemma output_rows_nonempty (web : Web) (uc : string) (cols : list string)
    (row : gmap string (option string)) (s : Frame Cell) :
  output_rows web uc cols row = Some s ->
  rows s <> [] /\ "Source_URL" ∈ columns s.
Proof.
  unfold output_rows.
  destruct (extracted web (row_url uc row)) as [t |]; [ | discriminate ].
  destruct (0 <? length (rows t))%nat eqn:Hlen; [ | discriminate ].
  intros [= <-]. split.
  - rewrite rows_tag_table. destruct (rows t); [ discriminate Hlen | discriminate ].
  - apply columns_tag_table. right. now left.
Qed.

Lemma result_table_empty (sets : list (Frame Cell)) :
  (forall s, s ∈ sets -> rows s <> [] /\ "Source_URL" ∈ columns s) ->
  frame_is_empty (result_table sets) = true <-> sets = [].
Proof.
  intros Hsets. split; [ | now intros -> ].
  destruct sets as [| s0 rest]; [ reflexivity | ]. intros He. exfalso.
  destruct (Hsets s0) as [Hrows Hcol]; [ apply elem_of_cons; now left | ].
  assert (Hc : "Source_URL" ∈ columns (result_table (s0 :: rest))).
  { apply result_table_cells. exists s0. split; [ apply elem_of_cons; now left | exact Hcol ]. }
  unfold frame_is_empty in He.
  destruct (columns (result_table (s0 :: rest))) as [| c cs] eqn:Ec;
    [ now apply elem_of_nil in Hc | ].
  cbn [result_table pd_concat rows map concat] in He.
  destruct (rows s0) as [| r l]; [ congruence | ]. discriminate He.
Qed.

(** X15: the Result Table is empty, in the sense of [DataFrame.empty],
    exactly when no Input Row yields Output Rows; otherwise it has a row and
    the column [Source_URL]. *)
Theorem X15_result_empty_iff (fs : FileSystem) (web : Web)
    (path sheet uc : string) (tr : list Event) (df inputs : Frame (option string)) :
  fs path sheet = Ok df ->
  clean_urls uc df = Ok inputs ->
  exists result,
    fst (process_kursziele_from_excel fs web path sheet uc tr) = Ok result /\
    (frame_is_empty result = true <->
     Forall (fun row => output_rows web uc (columns inputs) row = None) (rows inputs)) /\
    (frame_is_empty result = false ->
     rows result <> [] /\ "Source_URL" ∈ columns result).
Proof.
  intros Hfs Hclean.
  set (sets := omap (output_rows web uc (columns inputs)) (rows inputs)).
  assert (Hsets : forall s, s ∈ sets -> rows s <> [] /\ "Source_URL" ∈ columns s).
  { intros s Hs. apply list_elem_of_omap in Hs as (row & _ & Hrow).
    now apply output_rows_nonempty in Hrow. }
  exists (result_table sets).
  split; [ now rewrite (process_spec _ _ _ _ _ _ df inputs Hfs Hclean) | split ].
  - rewrite (result_table_empty sets Hsets). split.
    + intros Hnil. apply Forall_forall. intros row Hrow.
      destruct (output_rows web uc (columns inputs) row) as [s |] eqn:E; [ | reflexivity ].
      assert (Hin : s ∈ sets).
      { apply list_elem_of_omap. exists row. split; [ exact Hrow | exact E ]. }
      rewrite Hnil in Hin. now apply elem_of_nil in Hin.
    + apply omap_all_None.
  - intros Hne. destruct sets as [| s0 rest] eqn:Es; [ discriminate Hne | ].
    destruct (Hsets s0) as [Hrows Hcol]; [ apply elem_of_cons; now left | ].
    split.
    + cbn [result_table pd_concat rows map concat].
      destruct (rows s0); [ congruence | discriminate ].
    + apply result_table_cells. exists s0.
      split; [ apply elem_of_cons; now left | exact Hcol ].
Qed.

Lemma X15_witness :
  exists result,
    fst (process_kursziele_from_excel (one_file "in.xlsx" sheet_one)
           (one_page "u" [table_no_rows]) "in.xlsx" "Kursziele_Input" "Url" [])
      = Ok result /\
    frame_is_empty result = true.
Proof.
  destruct (X15_result_empty_iff (one_file "in.xlsx" sheet_one)
              (one_page "u" [table_no_rows]) "in.xlsx" "Kursziele_Input" "Url" []
              sheet_one sheet_one eq_refl eq_refl)
    as (result & Hres & Hiff & _).
  exists result. split; [ exact Hres | ].
  apply Hiff. constructor; [ reflexivity | constructor ].
Defined.

Lemma set_column_extends (c : string) (v : Cell) (df : Frame Cell) :
  exists added,
    columns (set_column c v df) = (columns df ++ added)%list /\
    (NoDup (columns df) -> NoDup (columns df ++ added)%list).
Proof.
  cbn [set_column columns]. case_decide as Hin.
  - exists []. rewrite app_nil_r. auto.
  - exists [c]. split; [ reflexivity | ]. intros Hnd.
    apply NoDup_app. split; [ exact Hnd | split; [ | apply NoDup_singleton ] ].
    intros x Hx Hxc. apply list_elem_of_singleton in Hxc. congruence.
Qed.

Lemma copy_row_columns_extends (uc : string) (cols : list string)
    (row : gmap string (option string)) (t : Frame Cell) :
  exists added,
    columns (copy_row_columns uc cols row t) = (columns t ++ added)%list /\
    (NoDup (columns t) -> NoDup (columns t ++ added)%list).
Proof.
  unfold copy_row_columns. revert t.
  induction cols as [| col cols IH]; intros t; cbn [fold_left].
  - exists []. rewrite app_nil_r. auto.
  - destruct (decide (col = uc)); [ apply IH | ].
    destruct (set_column_extends col (Raw (raw_cell row col)) t) as (a1 & E1 & N1).
    destruct (IH (set_column col (Raw (raw_cell row col)) t)) as (a2 & E2 & N2).
    exists (a1 ++ a2)%list. rewrite E2, E1, <- app_assoc.
    split; [ reflexivity | ]. intros Hnd.
    rewrite app_assoc, <- E1. apply N2. rewrite E1. now apply N1.
Qed.

Lemma union_step_NoDup (l acc : list string) :
  NoDup acc ->
  NoDup (fold_left
           (fun acc c => if decide (c ∈ acc) then acc else (acc ++ [c])%list) l acc).
Proof.
  revert acc. induction l as [| x l IH]; intros acc Hacc; [ exact Hacc | ].
  cbn [fold_left]. apply IH. case_decide as Hx; [ exact Hacc | ].
  apply NoDup_app. split; [ exact Hacc | split; [ | apply NoDup_singleton ] ].
  intros y Hy Hyx. apply list_elem_of_singleton in Hyx. congruence.
Qed.

(** X16: tagging keeps the columns of the extracted table in place and in
    order, adds the new ones behind them, keeps every row, and never makes
    two columns share a name; the Result Table never has two columns of the
    same name. *)
Theorem X16_columns_stay_distinct (uc : string) (cols : list string)
    (row : gmap string (option string)) (t : Frame Cell)
    (sets : list (Frame Cell)) :
  (exists added,
     columns (tag_table uc cols row t) = (columns t ++ added)%list /\
     (NoDup (columns t) -> NoDup (columns (tag_table uc cols row t)))) /\
  length (rows (tag_table uc cols row t)) = length (rows t) /\
  NoDup (columns (result_table sets)).
Proof.
  split; [ | split ].
  - unfold tag_table.
    destruct (set_column_extends "Source_URL" (Raw (Some (row_url uc row))) t)
      as (a1 & E1 & N1).
    destruct (copy_row_columns_extends uc cols row
                (set_column "Source_URL" (Raw (Some (row_url uc row))) t))
      as (a2 & E2 & N2).
    exists (a1 ++ a2)%list. rewrite E2, E1, <- app_assoc.
    split; [ reflexivity | ]. intros Hnd.
    rewrite app_assoc, <- E1. apply N2. rewrite E1. now apply N1.
  - rewrite rows_tag_table. apply length_map.
  - destruct sets as [| s0 rest]; [ constructor | ].
    cbn [result_table pd_concat columns]. unfold union_columns.
    apply union_step_NoDup. constructor.
Qed.

(** ** [main] *)

Lemma main_with_path (prog excel_path : string) (more : list string)
    (stdin : result string) (fs : FileSystem) (web : Web) (w : Writer)
    (tr : list Event) (df inputs : Frame (option string)) :
  excel_path <> "" ->
  fs excel_path "Kursziele_Input" = Ok df ->
  clean_urls "Url" df = Ok inputs ->
  main (prog :: excel_path :: more) stdin fs web w tr =
  let sets := omap (output_rows web "Url" (columns inputs)) (rows inputs) in
  let tr' := (tr ++ concat (map (row_events web "Url" (columns inputs)) (rows inputs)))%list in
  match sets with
  | [] => (Ok None, tr')
  | _ =>
      match w (output_path excel_path) (result_table sets) with
      | Ok _ => (Ok (Some (output_path excel_path, result_table sets)), tr')
      | Raise e => (Raise e, tr')
      end
  end.
Proof.
  intros Hne Hfs Hclean. unfold main.
  unfold mbind, IO_bind, mret, IO_ret.
  apply String.eqb_neq in Hne. rewrite Hne.
  rewrite (process_spec _ _ _ _ _ _ df inputs Hfs Hclean).
  cbv zeta.
  set (sets := omap (output_rows web "Url" (columns inputs)) (rows inputs)).
  assert (Hsets : forall s, s ∈ sets -> rows s <> [] /\ "Source_URL" ∈ columns s).
  { intros s Hs. apply list_elem_of_omap in Hs as (row & _ & Hrow).
    now apply output_rows_nonempty in Hrow. }
  pose proof (result_table_empty sets Hsets) as Hiff.
  destruct sets as [| s0 rest] eqn:Es.
  - reflexivity.
  - destruct (frame_is_empty (result_table (s0 :: rest))) eqn:He.
    + destruct Hiff as [Hnil _]. discriminate (Hnil eq_refl).
    + cbn [negb]. unfold lift.
      now destruct (w (output_path excel_path) (result_table (s0 :: rest))) as [[] | e].
Qed.

(** X17: called with a path, [main] writes a workbook exactly when some
    Input Row yields Output Rows; the workbook written is the Result Table,
    at the output path derived from the input path; an exception of the
    writer is not caught. *)
Theorem X17_main_writes_result (prog excel_path : string) (more : list string)
    (stdin : result string) (fs : FileSystem) (web : Web) (w : Writer)
    (tr : list Event) (df inputs : Frame (option string)) :
  excel_path <> "" ->
  fs excel_path "Kursziele_Input" = Ok df ->
  clean_urls "Url" df = Ok inputs ->
  let sets := omap (output_rows web "Url" (columns inputs)) (rows inputs) in
  let outcome := fst (main (prog :: excel_path :: more) stdin fs web w tr) in
  (sets = [] -> outcome = Ok None) /\
  (sets <> [] -> w (output_path excel_path) (result_table sets) = Ok tt ->
   outcome = Ok (Some (output_path excel_path, result_table sets))) /\
  (sets <> [] -> forall e,
     w (output_path excel_path) (result_table sets) = Raise e ->
     outcome = Raise e).
Proof.
  intros Hne Hfs Hclean sets outcome. unfold outcome.
  rewrite (main_with_path _ _ _ _ _ _ _ _ df inputs Hne Hfs Hclean).
  cbv zeta. fold sets.
  split; [ | split ].
  - now intros ->.
  - intros Hs Hw. destruct sets; [ congruence | ]. now rewrite Hw.
  - intros Hs e Hw. destruct sets; [ congruence | ]. now rewrite Hw.
Qed.

Lemma X17_witness :
  exists table,
    fst (main ["kursziel_extractor.py"; "in.xls"] (Raise OtherException)
           (one_file "in.xls" sheet_one) (one_page "u" [table_kursziel])
           (fun _ _ => Ok tt) [])
    = Ok (Some ("in_kursziele.xlsx", table)).
Proof.
  eexists.
  refine (proj1 (proj2
    (X17_main_writes_result "kursziel_extractor.py" "in.xls" []
       (Raise OtherException) (one_file "in.xls" sheet_one)
       (one_page "u" [table_kursziel]) (fun _ _ => Ok tt) []
       sheet_one sheet_one ltac:(discriminate) eq_refl eq_refl)) _ eq_refl).
  discriminate.
Defined.

(** X18: without a path -- an empty argument, or no argument and an input
    line that is blank -- [main] returns at once: no workbook is read, no
    request is made, nothing is written. *)
Theorem X18_main_without_path (argv : list string) (stdin : result string)
    (fs : FileSystem) (web : Web) (w : Writer) (tr : list Event) :
  (exists prog more, argv = prog :: "" :: more) \/
  ((argv = [] \/ exists prog, argv = [prog]) /\
   exists line, stdin = Ok line /\ PyStr.strip line = "") ->
  main argv stdin fs web w tr = (Ok None, tr).
Proof.
  intros [(prog & more & ->) | [Hargv (line & -> & Hline)]].
  - reflexivity.
  - unfold main. unfold mbind, IO_bind, mret, IO_ret, lift.
    destruct Hargv as [-> | [prog ->]]; now rewrite Hline.
Qed.

Lemma X18_witness :
  main ["kursziel_extractor.py"] (Ok "   ") (one_file "in.xlsx" sheet_one)
    (one_page "u" [table_kursziel]) (fun _ _ => Ok tt) [] = (Ok None, []).
Proof.
  apply X18_main_without_path. right.
  split; [ right; now exists "kursziel_extractor.py" | ].
  exists "   ". split; reflexivity.
Defined.

(** X19: when the workbook named on the command line cannot be read, or
    has no column "Url", [main] makes no request and writes nothing. *)
Theorem X19_main_unreadable_workbook (prog excel_path : string)
    (more : list string) (stdin : result string) (fs : FileSystem) (web : Web)
    (w : Writer) (tr : list Event) :
  (exists e, fs excel_path "Kursziele_Input" = Raise e) \/
  (exists df, fs excel_path "Kursziele_Input" = Ok df /\ "Url" ∉ columns df) ->
  main (prog :: excel_path :: more) stdin fs web w tr = (Ok None, tr).
Proof.
  intros H. unfold main. unfold mbind, IO_bind, mret, IO_ret.
  destruct (String.eqb excel_path ""); [ reflexivity | ].
  now rewrite (process_unreadable _ _ _ _ _ _ H).
Qed.

Lemma X19_witness :
  main ["kursziel_extractor.py"; "missing.xlsx"] (Raise OtherException)
    (one_file "in.xlsx" sheet_one) (one_page "u" [table_kursziel])
    (fun _ _ => Ok tt) [] = (Ok None, []).
Proof.
  apply X19_main_unreadable_workbook. left. now exists FileNotFoundError.
Defined.

(** X20: for an input path in which ".xls" does not occur, a successful
    run of [main] writes the Result Table to the input path itself. *)
Theorem X20_main_overwrites_input (prog excel_path : string) (more : list string)
    (stdin : result string) (fs : FileSystem) (web : Web) (w : Writer)
    (tr : list Event) (df inputs : Frame (option string)) :
  excel_path <> "" ->
  PyStr.contains ".xls" excel_path = false ->
  fs excel_path "Kursziele_Input" = Ok df ->
  clean_urls "Url" df = Ok inputs ->
  let sets := omap (output_rows web "Url" (columns inputs)) (rows inputs) in
  sets <> [] ->
  w excel_path (result_table sets) = Ok tt ->
  fst (main (prog :: excel_path :: more) stdin fs web w tr) =
    Ok (Some (excel_path, result_table sets)).
Proof.
  intros Hne Hxls Hfs Hclean sets Hsets Hw.
  rewrite (main_with_path _ _ _ _ _ _ _ _ df inputs Hne Hfs Hclean).
  cbv zeta. fold sets. rewrite (output_path_absent _ Hxls).
  destruct sets; [ congruence | ]. now rewrite Hw.
Qed.

Lemma X20_witness :
  exists table,
    fst (main ["kursziel_extractor.py"; "in.ods"] (Raise OtherException)
           (one_file "in.ods" sheet_one) (one_page "u" [table_kursziel])
           (fun _ _ => Ok tt) [])
    = Ok (Some ("in.ods", table)).
Proof.
  eexists.
  refine (X20_main_overwrites_input "kursziel_extractor.py" "in.ods" []
            (Raise OtherException) (one_file "in.ods" sheet_one)
            (one_page "u" [table_kursziel]) (fun _ _ => Ok tt) []
            sheet_one sheet_one ltac:(discriminate) eq_refl eq_refl eq_refl _ eq_refl).
  discriminate.
Defined.

(** ** The example workbook and the smoke test *)

(** X21: the workbook that [create_example_excel.py] writes fits the
    defaults of the batch runner: read with the default sheet and address
    column, its three rows are all Input Rows, and the batch requests their
    three addresses in order, whatever the web answers. *)
Theorem X21_example_workbook (fs : FileSystem) (web : Web) :
  let run :=
    process_kursziele_from_excel (create_example_excel fs) web
      "Kursziele_Input.xlsx" "Kursziele_Input" "Url" [] in
  requests (snd run) =
    [ "https://www.finanzen.net/kursziele/703000";
      "https://www.finanzen.net/kursziele/716460";
      "https://www.finanzen.net/kursziele/514000" ] /\
  fst run =
    Ok (result_table
          (omap (output_rows web "Url" ["Url"; "WKN"; "Bezeichnung"])
                (rows example_data))).
Proof.
  cbv zeta.
  rewrite (process_spec (create_example_excel fs) web
             "Kursziele_Input.xlsx" "Kursziele_Input" "Url" []
             example_data example_data eq_refl eq_refl).
  cbn [fst snd app]. split; [ | reflexivity ].
  now rewrite (proj1 (batch_events web "Url" (columns example_data) (rows example_data))).
Qed.

Lemma smoke_test_outcome (web : Web) (tr : list Event) :
  test_kursziel_extractor web tr =
  (Ok match extracted web test_url with
      | Some df => if negb (frame_is_empty df) then 0 else 1
      | None => 1
      end,
   (tr ++ [Request test_url])%list).
Proof.
  unfold test_kursziel_extractor, IO_try. unfold mbind, IO_bind.
  rewrite get_kursziele_table_extracted.
  destruct (extracted web test_url) as [df |]; [ | reflexivity ].
  now destruct (negb (frame_is_empty df)).
Qed.

(** X22: the smoke test makes one request, to its fixed address, and exits
    with 0 or 1; it exits with 1 when the request fails or the page has no
    table, and with 0 as soon as the first table of a page without any
    keyword header parses to a frame with a row and a column -- finding the
    keyword is not needed for success. *)
Theorem X22_smoke_test (web : Web) (tr : list Event) :
  (exists code,
     test_kursziel_extractor web tr = (Ok code, (tr ++ [Request test_url])%list) /\
     (code = 0 \/ code = 1)) /\
  (forall e, web test_url = Raise e ->
     fst (test_kursziel_extractor web tr) = Ok 1) /\
  (web test_url = Ok [] -> fst (test_kursziel_extractor web tr) = Ok 1) /\
  (forall table0 rest df,
     web test_url = Ok (table0 :: rest) ->
     Forall (fun t => header_has_keyword t = false) (table0 :: rest) ->
     load_frame table0 = Ok df ->
     rows df <> [] -> columns df <> [] ->
     fst (test_kursziel_extractor web tr) = Ok 0).
Proof.
  rewrite smoke_test_outcome. cbn [fst].
  split; [ | split; [ | split ] ].
  - eexists. split; [ reflexivity | ].
    destruct (extracted web test_url) as [df |]; [ | now right ].
    destruct (negb (frame_is_empty df)); auto.
  - intros e He. unfold extracted. now rewrite He.
  - intros He. unfold extracted. now rewrite He.
  - intros table0 rest df Hweb Hno Hl Hrows Hcols.
    unfold extracted. rewrite Hweb, (select_table_fallback _ _ Hno), Hl.
    unfold frame_is_empty. cbn [as_parsed rows columns].
    destruct (rows df); [ congruence | ].
    destruct (columns df); [ congruence | reflexivity ].
Qed.

(** ** What reaches [float] *)

Lemma all_chars_delete (P : ascii -> bool) (a : ascii) (s : string) :
  all_chars P s = true -> all_chars P (PyStr.delete_char a s) = true.
Proof.
  induction s as [| c s IH]; [ reflexivity | ].
  cbn [all_chars PyStr.delete_char]. rewrite andb_true_iff. intros [Hc Hs].
  destruct (Ascii.eqb c a); [ now apply IH | ].
  cbn [all_chars]. now rewrite Hc, IH.
Qed.

Lemma all_chars_deleted (a : ascii) (s : string) :
  all_chars (fun c => negb (Ascii.eqb c a)) (PyStr.delete_char a s) = true.
Proof.
  induction s as [| c s IH]; [ reflexivity | ].
  cbn [PyStr.delete_char]. destruct (Ascii.eqb c a) eqn:E; [ exact IH | ].
  cbn [all_chars]. now rewrite E, IH.
Qed.

Lemma all_chars_subst (P : ascii -> bool) (a b : ascii) (s : string) :
  P b = true -> all_chars P s = true ->
  all_chars P (PyStr.subst_char a b s) = true.
Proof.
  intros Hb. induction s as [| c s IH]; [ reflexivity | ].
  cbn [all_chars PyStr.subst_char]. rewrite andb_true_iff. intros [Hc Hs].
  rewrite (IH Hs), andb_true_r. now destruct (Ascii.eqb c a).
Qed.

Lemma all_chars_substituted (a b : ascii) (s : string) :
  Ascii.eqb b a = false ->
  all_chars (fun c => negb (Ascii.eqb c a)) (PyStr.subst_char a b s) = true.
Proof.
  intros Hb. induction s as [| c s IH]; [ reflexivity | ].
  cbn [all_chars PyStr.subst_char]. rewrite IH, andb_true_r.
  destruct (Ascii.eqb c a) eqn:E; [ now rewrite Hb | now rewrite E ].
Qed.

(** X4: the text that the normaliser hands to [float] never holds a space
    or a comma, whatever the cell holds. *)
Theorem X4_norm_has_no_space_or_comma (txt : string) :
  PyStr.contains " " (norm txt) = false /\
  PyStr.contains "," (norm txt) = false.
Proof.
  rewrite norm_numeral_spec. unfold numeral_spec, strip_markers_spec.
  split; apply contains_first_absent.
  - apply all_chars_subst; [ reflexivity | ].
    apply all_chars_delete, all_chars_deleted.
  - now apply all_chars_substituted.
Qed.
